(** * Changelog tasks ([tasks/changelog.py])

    A shallow embedding of the two invoke tasks of [tasks/changelog.py]:

    - [new], which allocates an empty release-note fragment under
      [.changelog/] and optionally hands it to [$EDITOR];
    - [done], which turns every fragment of [.changelog/] into a reno note
      under [releasenotes/notes/] and removes the fragment.

    Conventions of the model.

    - A Python 3 [str] is the [string] of the bytes of its UTF-8 encoding,
      which is also the encoding of the text files ([open] without
      [encoding], on the platforms the tasks run on).  An ASCII character is
      one byte, so [startswith("# ")], the slice [[2:]] after it and
      [hex[16:]] read the same on both sides; [str.strip()] removes the
      whitespace of Unicode, listed by code point and matched by encoding.
      The one slice that counts characters of arbitrary text is
      [release_note[:-3]]: it is the [drop_last 3] of the model when the
      last three characters of the name are ASCII.
    - A [dict] keyed by strings is a [gmap string _].
    - The file system is a finite map from paths, compared textually, to
      nodes (directory or regular file).  Paths are not normalised and the
      model knows no permissions, quotas or name-length limits: a statement
      about a run that creates a file assumes a name the file system takes
      ([name_fits]).
    - A task is a function from the world to an outcome (an exception or a
      value) and the world at the point where it stopped, so that the state
      left behind by an uncaught exception can be inspected.
    - The external collaborators ([uuid.uuid4], [os.system],
      [pypandoc.convert_text], [yaml.safe_dump]) are inputs of the model. *)

From Stdlib Require Import Ascii String NArith List.
From stdpp Require Import base option list gmap strings fin_maps.

Local Open Scope string_scope.

(** ** Python string primitives *)

Module PyStr.

(** [s.startswith(p)] *)
Fixpoint startswith (p s : string) : bool :=
  match p, s with
  | "", _ => true
  | String a p', String b s' => if decide (a = b) then startswith p' s' else false
  | String _ _, "" => false
  end.

(** [s[n:]] for [n >= 0] *)
Fixpoint drop (n : nat) (s : string) : string :=
  match n, s with
  | O, _ => s
  | S n', String _ s' => drop n' s'
  | S _, "" => ""
  end.

(** [s[:n]] for [n >= 0] *)
Fixpoint take (n : nat) (s : string) : string :=
  match n, s with
  | O, _ => ""
  | S n', String a s' => String a (take n' s')
  | S _, "" => ""
  end.

(** [s[:-k]] for [k > 0]: everything but the last [k] characters, and the
    empty string when [s] has at most [k] characters. *)
Definition drop_last (k : nat) (s : string) : string :=
  take (String.length s - k) s.

(** [s.endswith(p)] *)
Definition endswith (p s : string) : bool :=
  if decide (String.length p ≤ String.length s)%nat
  then bool_decide (drop (String.length s - String.length p) s = p)
  else false.

(** [s] without its prefix [p], when it has it *)
Definition cut_prefix (p s : string) : option string :=
  if startswith p s then Some (drop (String.length p) s) else None.

(** [s] without its suffix [p], when it has it *)
Definition cut_suffix (p s : string) : option string :=
  if endswith p s then Some (take (String.length s - String.length p) s)
  else None.

(** The UTF-8 encoding of a code point below [0x10000]. *)
Definition utf8 (cp : N) : string :=
  if (cp <? 0x80)%N then String (ascii_of_N cp) ""
  else if (cp <? 0x800)%N then
    String (ascii_of_N (0xC0 + cp / 0x40))
      (String (ascii_of_N (0x80 + cp mod 0x40)) "")
  else
    String (ascii_of_N (0xE0 + cp / 0x1000))
      (String (ascii_of_N (0x80 + (cp / 0x40) mod 0x40))
         (String (ascii_of_N (0x80 + cp mod 0x40)) "")).

(** The characters for which [str.isspace()] holds, which are those
    [str.strip()] removes: the code points CPython lists in
    [_PyUnicode_IsWhitespace]. *)
Definition whitespace_code_points : list N :=
  [0x09; 0x0A; 0x0B; 0x0C; 0x0D; 0x1C; 0x1D; 0x1E; 0x1F; 0x20;
   0x85; 0xA0; 0x1680;
   0x2000; 0x2001; 0x2002; 0x2003; 0x2004; 0x2005; 0x2006; 0x2007;
   0x2008; 0x2009; 0x200A;
   0x2028; 0x2029; 0x202F; 0x205F; 0x3000]%N.

Definition whitespace : list string :=
  Eval vm_compute in (utf8 <$> whitespace_code_points).

(** The first of the cuts of [s] by an element of [l]. *)
Fixpoint first_cut (cut : string → string → option string)
    (l : list string) (s : string) : option string :=
  match l with
  | [] => None
  | p :: l' =>
      match cut p s with
      | Some r => Some r
      | None => first_cut cut l' s
      end
  end.

(** [s] without one leading, respectively trailing, whitespace character *)
Definition lstrip1 (s : string) : option string :=
  first_cut cut_prefix whitespace s.

Definition rstrip1 (s : string) : option string :=
  first_cut cut_suffix whitespace s.

Fixpoint lstrip_go (fuel : nat) (s : string) : string :=
  match fuel with
  | O => s
  | S fuel' =>
      match lstrip1 s with
      | Some r => lstrip_go fuel' r
      | None => s
      end
  end.

Fixpoint rstrip_go (fuel : nat) (s : string) : string :=
  match fuel with
  | O => s
  | S fuel' =>
      match rstrip1 s with
      | Some r => rstrip_go fuel' r
      | None => s
      end
  end.

(** [s.lstrip()]: leading whitespace characters are removed one by one;
    there are at most as many as [s] has bytes. *)
Definition lstrip (s : string) : string := lstrip_go (String.length s) s.

(** [s.rstrip()] *)
Definition rstrip (s : string) : string := rstrip_go (String.length s) s.

(** [s.strip()] *)
Definition strip (s : string) : string := rstrip (lstrip s).

(** [s.isascii()] *)
Fixpoint isascii (s : string) : bool :=
  match s with
  | "" => true
  | String a s' => (N_of_ascii a <? 0x80)%N && isascii s'
  end.

(** [c in s] for a character [c] *)
Fixpoint contains (c : ascii) (s : string) : bool :=
  match s with
  | "" => false
  | String a s' => if decide (a = c) then true else contains c s'
  end.

(** [s.rfind(c)]: the index of the last occurrence of [c], if any. *)
Fixpoint rfind (c : ascii) (s : string) : option nat :=
  match s with
  | "" => None
  | String a s' =>
      match rfind c s' with
      | Some i => Some (S i)
      | None => if decide (a = c) then Some O else None
      end
  end.

(** all characters of [s] are ASCII whitespace *)
Fixpoint isspace_all (s : string) : bool :=
  match s with
  | "" => true
  | String a s' => Ascii.is_space a && isspace_all s'
  end.

(** the line terminator *)
Definition LF : string := String "010" "".

(** ["".join(l)] *)
Fixpoint join (l : list string) : string :=
  match l with
  | [] => ""
  | s :: l' => s +:+ join l'
  end.

End PyStr.

(** ** Exceptions *)

Inductive exn : Type :=
  | KeyError (key : string)
  | IOError (path : string)
  | ConversionError (text : string)
  | UnicodeDecodeError (path : string).

#[global] Instance exn_eq_dec : EqDecision exn.
Proof. solve_decision. Defined.

(** ** The line scanner of [done]

    The body of [for line in release_note_file], with the two locals
    [sections] and [current_section] as an explicit state. *)

Record scan_state : Type := ScanState {
  sections : gmap string string;
  current_section : option string
}.

Definition scan_init : scan_state :=
  {| sections := ∅; current_section := None |}.

Definition heading_marker : string := "# ".

Definition is_heading (line : string) : bool :=
  PyStr.startswith heading_marker line.

(** [line[2:].strip()] *)
Definition heading_name (line : string) : string :=
  PyStr.strip (PyStr.drop 2 line).

(** One iteration of the loop.  [sections[current_section] += line] reads
    the entry before it writes it, and raises [KeyError] when it is absent. *)
Definition scan_line (st : scan_state) (line : string) : exn + scan_state :=
  if is_heading line then
    let name := heading_name line in
    inr {| sections := <[name := ""]> (sections st);
           current_section := Some name |}
  else
    match current_section st with
    | Some cur =>
        match sections st !! cur with
        | Some body =>
            inr {| sections := <[cur := body +:+ line]> (sections st);
                   current_section := Some cur |}
        | None => inl (KeyError cur)
        end
    | None => inr st
    end.

Fixpoint scan_lines (st : scan_state) (lines : list string) : exn + scan_state :=
  match lines with
  | [] => inr st
  | line :: rest =>
      match scan_line st line with
      | inr st' => scan_lines st' rest
      | inl e => inl e
      end
  end.

(** The [sections] dictionary once the whole file has been read. *)
Definition parse_sections (lines : list string) : exn + gmap string string :=
  match scan_lines scan_init lines with
  | inr st => inr (sections st)
  | inl e => inl e
  end.

(** The loop invariant that rules [KeyError] out: the current section, when
    there is one, has an entry. *)
Definition scan_inv (st : scan_state) : Prop :=
  ∀ cur, current_section st = Some cur → is_Some (sections st !! cur).

Definition not_heading (line : string) : Prop := is_heading line = false.

(** ** Reading a text file

    The bytes of a file opened in text mode are decoded as UTF-8, and a
    byte sequence that is not UTF-8 raises [UnicodeDecodeError]. *)

Definition byte_in (lo hi : N) (a : ascii) : bool :=
  (lo <=? N_of_ascii a)%N && (N_of_ascii a <=? hi)%N.

(** a continuation byte *)
Definition utf8_cont (a : ascii) : bool := byte_in 0x80 0xBF a.

(** [a b] encodes a code point of [0x80 .. 0x7FF]. *)
Definition utf8_two (a b : ascii) : bool :=
  byte_in 0xC2 0xDF a && utf8_cont b.

(** [a b c] encodes a code point of [0x800 .. 0xFFFF] that is no
    surrogate. *)
Definition utf8_three (a b c : ascii) : bool :=
  utf8_cont c &&
  (byte_in 0xE0 0xE0 a && byte_in 0xA0 0xBF b
   || byte_in 0xE1 0xEC a && utf8_cont b
   || byte_in 0xED 0xED a && byte_in 0x80 0x9F b
   || byte_in 0xEE 0xEF a && utf8_cont b).

(** [a b c d] encodes a code point of [0x10000 .. 0x10FFFF]. *)
Definition utf8_four (a b c d : ascii) : bool :=
  utf8_cont c && utf8_cont d &&
  (byte_in 0xF0 0xF0 a && byte_in 0x90 0xBF b
   || byte_in 0xF1 0xF3 a && utf8_cont b
   || byte_in 0xF4 0xF4 a && byte_in 0x80 0x8F b).

(** [bytes.decode("utf-8")] succeeds. *)
Fixpoint valid_utf8 (s : string) : bool :=
  match s with
  | "" => true
  | String a s1 =>
      if byte_in 0x00 0x7F a then valid_utf8 s1
      else
        match s1 with
        | "" => false
        | String b s2 =>
            if utf8_two a b then valid_utf8 s2
            else
              match s2 with
              | "" => false
              | String c s3 =>
                  if utf8_three a b c then valid_utf8 s3
                  else
                    match s3 with
                    | "" => false
                    | String d s4 => utf8_four a b c d && valid_utf8 s4
                    end
              end
        end
  end.

(** Iterating over a file object opened in text mode yields its lines.  With
    universal newlines, the default, a line ends at LF, at CR LF or at a CR
    alone, and each of them reaches the loop as LF; only the last line may
    lack a terminator. *)
Fixpoint readlines (text : string) : list string :=
  match text with
  | "" => []
  | String a text' =>
      if decide (a = "010"%char) then PyStr.LF :: readlines text'
      else if decide (a = "013"%char) then
        match text' with
        | String b text'' =>
            if decide (b = "010"%char) then PyStr.LF :: readlines text''
            else PyStr.LF :: readlines text'
        | "" => [PyStr.LF]
        end
      else
        match readlines text' with
        | [] => [String a ""]
        | line :: rest => String a line :: rest
        end
  end.

(** ** The world: file system, environment and standard output *)

Inductive node : Type :=
  | Dir
  | File (content : string).

#[global] Instance node_eq_dec : EqDecision node.
Proof. solve_decision. Defined.

Record world : Type := World {
  fs : gmap string node;
  environ : gmap string string;
  stdout : list string
}.

Definition set_fs (f : gmap string node → gmap string node) (w : world) : world :=
  {| fs := f (fs w); environ := environ w; stdout := stdout w |}.

(** A task either returns a value or raises; both leave a world behind. *)
Definition task (A : Type) : Type := world → (exn + A) * world.

Definition lift {A} (r : exn + A) : task A := λ w, (r, w).

#[global] Instance task_ret : MRet task := λ A a w, (inr a, w).

#[global] Instance task_bind : MBind task := λ A B k m w,
  match m w with
  | (inr a, w') => k a w'
  | (inl e, w') => (inl e, w')
  end.

(** ** Operating-system primitives *)

Module Os.

(** The directory holding [p] exists; a path without separator lives in
    the working directory, which always does. *)
Definition parent_is_dir (m : gmap string node) (p : string) : bool :=
  match PyStr.rfind "/" p with
  | None => true
  | Some i => bool_decide (m !! PyStr.take i p = Some Dir)
  end.

(** [os.path.exists(p)] *)
Definition path_exists (p : string) : task bool :=
  λ w, (inr (bool_decide (is_Some (fs w !! p))), w).

(** [os.makedirs(p)] for a path [p] of one component, the only use in
    this file: it is then [os.mkdir(p)]. *)
Definition makedirs (p : string) : task unit := λ w,
  match fs w !! p with
  | Some _ => (inl (IOError p), w)
  | None =>
      if parent_is_dir (fs w) p then (inr (), set_fs (insert p Dir) w)
      else (inl (IOError p), w)
  end.

(** [open(p, "w")] and [open(p, "w+")]: create the file or truncate it. *)
Definition open_write (p : string) : task unit := λ w,
  if parent_is_dir (fs w) p then
    match fs w !! p with
    | Some Dir => (inl (IOError p), w)
    | _ => (inr (), set_fs (insert p (File "")) w)
    end
  else (inl (IOError p), w).

(** writing [data] to the file opened at [p] *)
Definition file_write (p data : string) : task unit := λ w,
  match fs w !! p with
  | Some (File old) => (inr (), set_fs (insert p (File (old +:+ data))) w)
  | _ => (inl (IOError p), w)
  end.

(** [open(p, "r")] and reading the file: its text, when its bytes decode *)
Definition open_read (p : string) : task string := λ w,
  match fs w !! p with
  | Some (File content) =>
      if valid_utf8 content then (inr content, w)
      else (inl (UnicodeDecodeError p), w)
  | _ => (inl (IOError p), w)
  end.

(** [os.remove(p)] *)
Definition remove (p : string) : task unit := λ w,
  match fs w !! p with
  | Some (File _) => (inr (), set_fs (delete p) w)
  | _ => (inl (IOError p), w)
  end.

(** the entry name of [p] when [p] is a direct child of directory [d] *)
Definition child_of (d p : string) : option string :=
  if PyStr.startswith (d +:+ "/") p then
    let name := PyStr.drop (String.length d + 1) p in
    if PyStr.contains "/" name then None
    else if decide (name = "") then None else Some name
  else None.

(** [os.listdir(d)]; the order of the entries is arbitrary. *)
Definition listdir (d : string) : task (list string) := λ w,
  match fs w !! d with
  | Some Dir => (inr (omap (child_of d) (elements (dom (fs w)))), w)
  | _ => (inl (IOError d), w)
  end.

(** [os.getenv(name)] *)
Definition getenv (name : string) : task (option string) :=
  λ w, (inr (environ w !! name), w).

(** [print(s)] *)
Definition print (s : string) : task unit := λ w,
  (inr (), {| fs := fs w; environ := environ w; stdout := stdout w ++ [s] |}).

End Os.

(** ** [uuid.UUID.hex]: the 128-bit integer as 32 lowercase hex digits *)

Definition hex_digit (d : N) : ascii :=
  match d with
  | 0 => "0" | 1 => "1" | 2 => "2" | 3 => "3" | 4 => "4" | 5 => "5"
  | 6 => "6" | 7 => "7" | 8 => "8" | 9 => "9" | 10 => "a" | 11 => "b"
  | 12 => "c" | 13 => "d" | 14 => "e" | _ => "f"
  end%N%char.

Fixpoint hex_digits (width : nat) (n : N) (acc : string) : string :=
  match width with
  | O => acc
  | S width' => hex_digits width' (n / 16)%N (String (hex_digit (n mod 16)%N) acc)
  end.

(** ['%032x' % self.int] *)
Definition uuid_hex (u : N) : string := hex_digits 32 u "".

Definition is_hex_char (a : ascii) : bool :=
  bool_decide (a ∈ ["0"; "1"; "2"; "3"; "4"; "5"; "6"; "7"; "8"; "9";
                    "a"; "b"; "c"; "d"; "e"; "f"]%char).

Fixpoint all_hex (s : string) : bool :=
  match s with
  | "" => true
  | String a s' => is_hex_char a && all_hex s'
  end.

(** ** Paths used by the tasks *)

Definition staging_dir : string := ".changelog".
Definition notes_dir : string := "releasenotes/notes".

(** [".changelog/{}".format(release_note)] *)
Definition fragment_path (release_note : string) : string :=
  ".changelog/" +:+ release_note.

(** ["releasenotes/notes/{}.yaml".format(release_note[:-3])] *)
Definition note_name (release_note : string) : string :=
  PyStr.drop_last 3 release_note +:+ ".yaml".

Definition note_path (release_note : string) : string :=
  "releasenotes/notes/" +:+ note_name release_note.

(** [".changelog/{}-{}.md".format(title, uuid.uuid4().hex[16:])] *)
Definition fragment_name (title : string) (u : N) : string :=
  title +:+ "-" +:+ PyStr.drop 16 (uuid_hex u) +:+ ".md".

Definition release_note_path (title : string) (u : N) : string :=
  ".changelog/" +:+ fragment_name title u.

(** The closing message of [new]. *)
Definition done_reminder : string :=
  "When you are done editing don't forget to run 'inv changelog.done'".

(** ** The tasks *)

Section Tasks.

(** [os.system(command)]: the command does what it wants to the file
    system and yields an exit status. *)
Variable os_system : string → gmap string node → gmap string node * Z.

(** [pypandoc.convert_text(source, to=..., format=...)]; [None] stands
    for a raised exception. *)
Variable convert_text : string → string → string → option string.

(** [yaml.safe_dump(data, default_flow_style=...)], the text written to
    the stream. *)
Variable safe_dump : gmap string (list string) → bool → string.

Definition system (command : string) : task Z := λ w,
  let '(m, status) := os_system command (fs w) in
  (inr status, set_fs (λ _, m) w).

(** *** [new] *)

Definition new (u : N) (title : string) : task unit :=
  present ← Os.path_exists staging_dir;
  _ ← (if present : bool then mret () else Os.makedirs staging_dir);
  let path := release_note_path title u in
  _ ← Os.open_write path;
  editor ← Os.getenv "EDITOR";
  _ ← match editor with
      | None => Os.print ("Please edit " +:+ path +:+ " manualy")
      | Some _ =>
          editor' ← Os.getenv "EDITOR";
          _ ← system (default "None" editor' +:+ " " +:+ path);
          mret ()
      end;
  Os.print done_reminder.

(** *** [done] *)

(** The loop replacing every accumulated text by a one-element list with
    its conversion.  Each key is visited once, so the dictionary updated
    in place is the dictionary built from scratch.  The code walks the
    dictionary in insertion order and the fold in the order of the map:
    the record is the same, and when several sections fail to convert the
    order only decides which of them the exception names. *)
Definition convert_sections (secs : gmap string string)
    : exn + gmap string (list string) :=
  map_fold
    (λ section text (acc : exn + gmap string (list string)),
       match acc with
       | inl e => inl e
       | inr out =>
           match convert_text text "rst" "markdown" with
           | Some rst => inr (<[section := [rst]]> out)
           | None => inl (ConversionError text)
           end
       end)
    (inr ∅) secs.

(** What the loop leaves under a key whose text is [text]. *)
Definition to_rst (text : string) : option (list string) :=
  (λ rst, [rst]) <$> convert_text text "rst" "markdown".

(** The body of the loop over the staging directory. *)
Definition process_fragment (release_note : string) : task unit :=
  text ← Os.open_read (fragment_path release_note);
  secs ← lift (parse_sections (readlines text));
  record ← lift (convert_sections secs);
  _ ← Os.open_write (note_path release_note);
  _ ← Os.file_write (note_path release_note) (safe_dump record false);
  Os.remove (fragment_path release_note).

Fixpoint done_loop (release_notes : list string) : task unit :=
  match release_notes with
  | [] => mret ()
  | release_note :: rest =>
      _ ← process_fragment release_note;
      done_loop rest
  end.

Definition done : task unit :=
  release_notes ← Os.listdir staging_dir;
  done_loop release_notes.

End Tasks.

(** ** Reference readings of the documentation

    Two notions the documentation of the tasks uses and the code does not
    compute: the merged body of a repeated section, and the replacement of
    a file name's extension. *)

(** The raw lines of all the blocks headed [name], in file order: a line is
    collected when the last heading read so far is named [name]. *)
Fixpoint blocks_under (name : string) (active : bool) (lines : list string)
    : string :=
  match lines with
  | [] => ""
  | line :: rest =>
      if is_heading line
      then blocks_under name (bool_decide (heading_name line = name)) rest
      else (if active then line else "") +:+ blocks_under name active rest
  end.

Definition spec_merged_body (name : string) (lines : list string) : string :=
  blocks_under name false lines.

(** The number of heading lines named [name]. *)
Definition count_headings (name : string) (lines : list string) : nat :=
  length (filter (λ line, is_heading line = true ∧ heading_name line = name) lines).

(** The name without its extension, in the sense of [os.path.splitext]: the
    part before the last dot, a dot in first position not counting. *)
Definition spec_stem (name : string) : string :=
  match PyStr.rfind "." name with
  | Some (S i) => PyStr.take (S i) name
  | _ => name
  end.

Definition spec_replace_extension (name ext : string) : string :=
  spec_stem name +:+ ext.

(** ** Sample inputs *)

Module Sample.

Definition LF : string := PyStr.LF.

(** a fragment with text before its first heading *)
Definition preamble : list string := ["Notes for the release" +:+ LF; LF].
Definition two_sections : list string :=
  ["# Bug Fixes" +:+ LF; "Fixed the thing." +:+ LF;
   "# Features" +:+ LF; "Added the other thing." +:+ LF].

(** a fragment with the heading [Fixes] twice *)
Definition repeated : list string :=
  ["# Fixes" +:+ LF; "First fix." +:+ LF; "# Fixes" +:+ LF; "Second fix." +:+ LF].

(** a converter that marks what it was given *)
Definition convert_text (source to format : string) : option string :=
  Some (source +:+ "(" +:+ format +:+ " to " +:+ to +:+ ")").

(** the converter when pandoc is not installed: every call raises *)
Definition no_pandoc (source to format : string) : option string := None.

(** a block-style rendering, one key and its items per entry *)
Definition safe_dump (data : gmap string (list string)) (flow : bool) : string :=
  PyStr.join ((λ kv, kv.1 +:+ ":" +:+ LF +:+
                     PyStr.join ((λ item, "- " +:+ item +:+ LF) <$> kv.2))
              <$> map_to_list data).

(** an editor that cannot be launched: the shell reports status 127,
    which [os.system] returns as [127 * 256], and nothing else happens *)
Definition no_editor (command : string) (m : gmap string node)
    : gmap string node * Z := (m, 32512%Z).

(** two draws of [uuid.uuid4()], as integers *)
Definition uuid : N := 0x9f1c2d3e4b5a4f60a1b2c3d4e5f60718%N.
Definition other_uuid : N := 0x9f1c2d3e4b5a4f60b1b2c3d4e5f60719%N.

Definition empty_world : world :=
  {| fs := ∅; environ := ∅; stdout := [] |}.


(** a checkout with the notes directory and one fragment to compile *)
Definition staged (name text : string) : world :=
  {| fs := {[ ".changelog" := Dir;
              "releasenotes/notes" := Dir;
              ".changelog/" +:+ name := File text ]};
     environ := ∅; stdout := [] |}.

(** the same checkout without the notes directory *)
Definition staged_no_notes (name text : string) : world :=
  {| fs := {[ ".changelog" := Dir; ".changelog/" +:+ name := File text ]};
     environ := ∅; stdout := [] |}.

Definition fragment : string := "foo-abc123.md".

(** the text of a fragment with the two sections of the release notes *)
Definition two_sections_text : string :=
  "# Bug Fixes" +:+ LF +:+ "Fixed the thing." +:+ LF +:+
  "# Features" +:+ LF +:+ "Added the other thing." +:+ LF.

(** the text of a fragment without heading *)
Definition plain_text : string := "Nothing to report." +:+ LF.

(** a checkout with the notes directory and two fragments to compile *)
Definition staged_pair (name1 text1 name2 text2 : string) : world :=
  {| fs := {[ ".changelog" := Dir;
              "releasenotes/notes" := Dir;
              ".changelog/" +:+ name1 := File text1;
              ".changelog/" +:+ name2 := File text2 ]};
     environ := ∅; stdout := [] |}.

(** the text of a fragment with one section *)
Definition one_section_text : string :=
  "# Deprecations" +:+ LF +:+ "Dropped the old thing." +:+ LF.

(** a command that removes every file and reports success *)
Definition wiping_command (command : string) (m : gmap string node)
    : gmap string node * Z := (∅, 0%Z).

(** a checkout with the notes directory and nothing else *)
Definition fresh : world :=
  {| fs := {[ "releasenotes/notes" := Dir ]}; environ := ∅; stdout := [] |}.

(** a checkout where the name [new] is about to generate is taken *)
Definition taken : world :=
  {| fs := {[ ".changelog" := Dir;
              ".changelog/fix-crash-a1b2c3d4e5f60718.md" := File two_sections_text ]};
     environ := ∅; stdout := [] |}.

End Sample.

(** ** What [str.strip()] leaves, and the names a file system takes *)

(** [s] is made of whitespace characters only. *)
Definition whitespace_run (s : string) : Prop :=
  ∃ l, Forall (λ ws, ws ∈ PyStr.whitespace) l ∧ s = PyStr.join l.

Definition starts_with_whitespace (s : string) : Prop :=
  ∃ ws, ws ∈ PyStr.whitespace ∧ PyStr.startswith ws s = true.

Definition ends_with_whitespace (s : string) : Prop :=
  ∃ ws, ws ∈ PyStr.whitespace ∧ PyStr.endswith ws s = true.

(** A file name the file system takes: at most 255 bytes ([NAME_MAX]), none
    of them NUL.  The primitives of [Os] do not check it. *)
Definition name_fits (name : string) : Prop :=
  (String.length name ≤ 255)%nat ∧ PyStr.contains "000" name = false.

(** The last three characters of [name] are ASCII, so that [name[:-3]],
    which counts characters, is [PyStr.drop_last 3 name], which counts
    bytes. *)
Definition ascii_tail (name : string) : Prop :=
  PyStr.isascii (PyStr.drop (String.length name - 3) name) = true.

(** The text of a file as the loop reads it: with universal newlines, CR LF
    and a CR alone are read as LF. *)
Fixpoint universal_newlines (text : string) : string :=
  match text with
  | "" => ""
  | String a text' =>
      if decide (a = "013"%char) then
        match text' with
        | String b text'' =>
            if decide (b = "010"%char)
            then String "010" (universal_newlines text'')
            else String "010" (universal_newlines text')
        | "" => String "010" ""
        end
      else String a (universal_newlines text')
  end.

(** ** Notions used to state further properties *)


Fixpoint last_char (s : string) : option ascii :=
  match s with
  | "" => None
  | String a "" => Some a
  | String _ s' => last_char s'
  end.

(** The names of the heading lines of a file. *)
Definition heading_names (lines : list string) : gset string :=
  list_to_set (heading_name <$> filter (λ line, is_heading line = true) lines).

(** Every section of the fragment whose text is [text] converts. *)
Definition convertible
    (convert_text : string → string → string → option string)
    (text : string) : Prop :=
  ∀ secs, parse_sections (readlines text) = inr secs →
    map_Forall (λ _ body, is_Some (convert_text body "rst" "markdown")) secs.

(** The path [p] holds a dumped record. *)
Definition is_note
    (safe_dump : gmap string (list string) → bool → string)
    (m : gmap string node) (p : string) : Prop :=
  ∃ record, m !! p = Some (File (safe_dump record false)).

(** The value of a hexadecimal digit. *)
Definition hex_val (a : ascii) : N :=
  match a with
  | "0" => 0 | "1" => 1 | "2" => 2 | "3" => 3 | "4" => 4 | "5" => 5
  | "6" => 6 | "7" => 7 | "8" => 8 | "9" => 9 | "a" => 10 | "b" => 11
  | "c" => 12 | "d" => 13 | "e" => 14 | _ => 15
  end%char%N.

(** * Properties *)

(** ** Strings *)

Lemma app_nil_l (s : string) : "" +:+ s = s.
Proof. reflexivity. Qed.

Lemma app_cons (a : ascii) (s t : string) : String a s +:+ t = String a (s +:+ t).
Proof. reflexivity. Qed.

Ltac str_simpl := rewrite ?app_cons, ?app_nil_l; simpl.
Ltac str_simpl_in H := rewrite ?app_cons, ?app_nil_l in H; simpl in H.

Section PyStrFacts.

Lemma app_nil_r (s : string) : s +:+ "" = s.
Proof. induction s as [|a s IH]; str_simpl; [done | by rewrite IH]. Qed.

Lemma app_assoc (a b c : string) : (a +:+ b) +:+ c = a +:+ (b +:+ c).
Proof. induction a as [|x a IH]; str_simpl; [done | by rewrite IH]. Qed.

Lemma app_length (a b : string) :
  String.length (a +:+ b) = String.length a + String.length b.
Proof. induction a as [|x a IH]; str_simpl; [done | by rewrite IH]. Qed.

Lemma app_inv_tail (a b s : string) : a +:+ s = b +:+ s → a = b.
Proof.
  revert b. induction a as [|x a IH]; intros [|y b] H; str_simpl_in H.
  - done.
  - apply (f_equal String.length) in H. simpl in H.
    rewrite app_length in H. lia.
  - apply (f_equal String.length) in H. simpl in H.
    rewrite app_length in H. lia.
  - injection H as -> H. f_equal. by apply IH.
Qed.

Lemma startswith_app (p r : string) : PyStr.startswith p (p +:+ r) = true.
Proof.
  induction p as [|a p IH]; str_simpl; [done|]. by rewrite decide_True.
Qed.

Lemma startswith_inv (p s : string) :
  PyStr.startswith p s = true → ∃ r, s = p +:+ r.
Proof.
  revert s. induction p as [|a p IH]; intros s H; simpl in H.
  - by exists s.
  - destruct s as [|b s]; [done|]. case_decide; [subst b | done].
    destruct (IH _ H) as [r ->]. by exists r.
Qed.

Lemma drop_app (p r : string) : PyStr.drop (String.length p) (p +:+ r) = r.
Proof. induction p as [|a p IH]; str_simpl; [by destruct r | done]. Qed.

Lemma take_app (p r : string) : PyStr.take (String.length p) (p +:+ r) = p.
Proof. induction p as [|a p IH]; str_simpl; [by destruct r | by rewrite IH]. Qed.

Lemma drop_length (n : nat) (s : string) :
  String.length (PyStr.drop n s) = String.length s - n.
Proof.
  revert s. induction n as [|n IH]; intros [|a s]; simpl; auto with lia.
Qed.

Lemma drop_last_app (k : nat) (stem ext : string) :
  String.length ext = k → PyStr.drop_last k (stem +:+ ext) = stem.
Proof.
  intros <-. unfold PyStr.drop_last. rewrite app_length.
  replace (String.length stem + String.length ext - String.length ext)
    with (String.length stem) by lia.
  apply take_app.
Qed.

End PyStrFacts.

(** ** [str.strip()] *)

Section StripFacts.

Implicit Types (s t r p q pad : string) (a c : ascii) (l : list string).

Lemma take_app_drop (n : nat) s : PyStr.take n s +:+ PyStr.drop n s = s.
Proof.
  revert s. induction n as [|n IH]; intros [|a s]; simpl; try done.
  rewrite app_cons. by rewrite IH.
Qed.

Lemma take_length_le (n : nat) s :
  (n ≤ String.length s)%nat → String.length (PyStr.take n s) = n.
Proof.
  revert s. induction n as [|n IH]; intros [|a s] Hn; simpl in *; try lia.
  rewrite IH; lia.
Qed.

Lemma first_cut_Some cut l s r :
  PyStr.first_cut cut l s = Some r → ∃ p, p ∈ l ∧ cut p s = Some r.
Proof.
  induction l as [|p l IH]; simpl; [done|].
  destruct (cut p s) as [r'|] eqn:Hp.
  - intros [= <-]. exists p. split; [by left | done].
  - intros (q & Hq & Hcut)%IH. exists q. split; [by right | done].
Qed.

Lemma first_cut_None cut l s :
  PyStr.first_cut cut l s = None → ∀ p, p ∈ l → cut p s = None.
Proof.
  induction l as [|q l IH]; simpl; intros H p Hp.
  - by apply elem_of_nil in Hp.
  - destruct (cut q s) eqn:Hq; [done|].
    apply elem_of_cons in Hp as [-> | Hp]; [done | by apply IH].
Qed.

Lemma cut_prefix_Some p s r : PyStr.cut_prefix p s = Some r ↔ s = p +:+ r.
Proof.
  unfold PyStr.cut_prefix. split.
  - destruct (PyStr.startswith p s) eqn:Hs; [|done].
    destruct (startswith_inv _ _ Hs) as [r' ->]. rewrite drop_app.
    by intros [= ->].
  - intros ->. by rewrite startswith_app, drop_app.
Qed.

Lemma cut_prefix_None p s :
  PyStr.cut_prefix p s = None ↔ PyStr.startswith p s = false.
Proof. unfold PyStr.cut_prefix. by destruct (PyStr.startswith p s). Qed.

Lemma endswith_app r p : PyStr.endswith p (r +:+ p) = true.
Proof.
  unfold PyStr.endswith. rewrite app_length.
  rewrite decide_True by lia.
  replace (String.length r + String.length p - String.length p)
    with (String.length r) by lia.
  rewrite drop_app. by apply bool_decide_eq_true.
Qed.

Lemma endswith_inv p s : PyStr.endswith p s = true → ∃ r, s = r +:+ p.
Proof.
  unfold PyStr.endswith. case_decide; [|done].
  intros Heq%bool_decide_eq_true.
  exists (PyStr.take (String.length s - String.length p) s).
  set (n := String.length s - String.length p) in *.
  rewrite <- Heq. by rewrite take_app_drop.
Qed.

Lemma cut_suffix_Some p s r : PyStr.cut_suffix p s = Some r ↔ s = r +:+ p.
Proof.
  unfold PyStr.cut_suffix. split.
  - destruct (PyStr.endswith p s) eqn:Hs; [|done].
    destruct (endswith_inv _ _ Hs) as [r' ->]. rewrite app_length.
    replace (String.length r' + String.length p - String.length p)
      with (String.length r') by lia.
    rewrite take_app. by intros [= ->].
  - intros ->. rewrite endswith_app, app_length.
    replace (String.length r + String.length p - String.length p)
      with (String.length r) by lia.
    by rewrite take_app.
Qed.

Lemma cut_suffix_None p s :
  PyStr.cut_suffix p s = None ↔ PyStr.endswith p s = false.
Proof. unfold PyStr.cut_suffix. by destruct (PyStr.endswith p s). Qed.

Lemma startswith_app_l p s t :
  PyStr.startswith p s = true → PyStr.startswith p (s +:+ t) = true.
Proof.
  intros [r ->]%startswith_inv. rewrite app_assoc. apply startswith_app.
Qed.

(** A prefix of [x +:+ y] is a prefix of [x] or runs into [y]. *)
Lemma startswith_app_cases q (x y : string) :
  PyStr.startswith q (x +:+ y) = true →
  PyStr.startswith q x = true ∨
  ∃ v, v ≠ "" ∧ q = x +:+ v ∧ PyStr.startswith v y = true.
Proof.
  revert q. induction x as [|c x IH]; intros q H.
  - rewrite app_nil_l in H. destruct q as [|d q]; [by left|].
    right. by exists (String d q).
  - destruct q as [|d q]; [by left|].
    rewrite app_cons in H. simpl in H |- *.
    case_decide; [subst d | done].
    destruct (IH q H) as [Hl | (v & Hv & -> & Hy)]; [by left|].
    right. by exists v.
Qed.

(** *** The list of whitespace characters *)

Lemma whitespace_checks :
  forallb (λ p,
    negb (bool_decide (p = "")) &&
    forallb (λ c, negb (PyStr.contains c (PyStr.drop 1 p)))
      ["009"; "010"; "011"; "012"; "013"; " "]%char &&
    forallb (λ q,
      bool_decide (p = q) ||
      negb (PyStr.startswith p q) && negb (PyStr.startswith q p))
      PyStr.whitespace)
    PyStr.whitespace = true.
Proof. vm_compute. reflexivity. Qed.

Lemma whitespace_check p :
  p ∈ PyStr.whitespace →
  p ≠ "" ∧
  (∀ c, Ascii.is_space c = true → PyStr.contains c (PyStr.drop 1 p) = false) ∧
  (∀ q, q ∈ PyStr.whitespace →
        PyStr.startswith p q = true ∨ PyStr.startswith q p = true → p = q).
Proof.
  intros Hp. pose proof whitespace_checks as H.
  rewrite forallb_forall in H. apply list_elem_of_In in Hp.
  specialize (H p Hp).
  apply andb_true_iff in H as [[Hne Htail]%andb_true_iff Hfree].
  split_and!.
  - intros ->. done.
  - intros c Hc. rewrite forallb_forall in Htail.
    apply negb_true_iff, Htail.
    destruct c as [[] [] [] [] [] [] [] []]; try discriminate Hc;
      simpl; tauto.
  - intros q Hq Hpq. rewrite forallb_forall in Hfree.
    apply list_elem_of_In in Hq. specialize (Hfree q Hq).
    apply orb_true_iff in Hfree as [Heq | Hno].
    + by apply bool_decide_eq_true in Heq.
    + apply andb_true_iff in Hno as [H1%negb_true_iff H2%negb_true_iff].
      destruct Hpq; congruence.
Qed.

Lemma space_is_whitespace a :
  Ascii.is_space a = true → String a "" ∈ PyStr.whitespace.
Proof.
  intros Ha. apply list_elem_of_In.
  destruct a as [[] [] [] [] [] [] [] []]; try discriminate Ha;
    vm_compute; tauto.
Qed.

(** *** One step *)

Lemma lstrip1_Some s r :
  PyStr.lstrip1 s = Some r → ∃ ws, ws ∈ PyStr.whitespace ∧ s = ws +:+ r.
Proof.
  intros (ws & Hws & Hcut)%first_cut_Some. exists ws.
  by apply cut_prefix_Some in Hcut.
Qed.

Lemma lstrip1_None s :
  PyStr.lstrip1 s = None ↔ ¬ starts_with_whitespace s.
Proof.
  split.
  - intros H (ws & Hws & Hs).
    pose proof (first_cut_None _ _ _ H ws Hws) as Hcut.
    apply cut_prefix_None in Hcut. congruence.
  - intros H. destruct (PyStr.lstrip1 s) as [r|] eqn:Hr; [|done].
    destruct (lstrip1_Some _ _ Hr) as (ws & Hws & ->).
    destruct H. exists ws. split; [done | apply startswith_app].
Qed.

Lemma rstrip1_Some s r :
  PyStr.rstrip1 s = Some r → ∃ ws, ws ∈ PyStr.whitespace ∧ s = r +:+ ws.
Proof.
  intros (ws & Hws & Hcut)%first_cut_Some. exists ws.
  by apply cut_suffix_Some in Hcut.
Qed.

Lemma rstrip1_None s :
  PyStr.rstrip1 s = None ↔ ¬ ends_with_whitespace s.
Proof.
  split.
  - intros H (ws & Hws & Hs).
    pose proof (first_cut_None _ _ _ H ws Hws) as Hcut.
    apply cut_suffix_None in Hcut. congruence.
  - intros H. destruct (PyStr.rstrip1 s) as [r|] eqn:Hr; [|done].
    destruct (rstrip1_Some _ _ Hr) as (ws & Hws & ->).
    destruct H. exists ws. split; [done | apply endswith_app].
Qed.

(** Whitespace characters are prefix free, so the one that starts a string
    is determined. *)
Lemma lstrip1_whitespace ws s :
  ws ∈ PyStr.whitespace → PyStr.lstrip1 (ws +:+ s) = Some s.
Proof.
  intros Hws. destruct (PyStr.lstrip1 (ws +:+ s)) as [r|] eqn:Hr.
  - destruct (lstrip1_Some _ _ Hr) as (q & Hq & Heq).
    assert (q = ws) as ->.
    { destruct (whitespace_check q Hq) as (_ & _ & Hfree).
      apply Hfree; [done|].
      assert (PyStr.startswith q (ws +:+ s) = true) as Hs
        by (rewrite Heq; apply startswith_app).
      destruct (startswith_app_cases _ _ _ Hs) as [? | (v & _ & -> & _)];
        [by left|]. right. apply startswith_app. }
    by apply String.app_inj in Heq as ->.
  - apply lstrip1_None in Hr. destruct Hr. exists ws.
    split; [done | apply startswith_app].
Qed.

Lemma lstrip1_space a s :
  Ascii.is_space a = true → PyStr.lstrip1 (String a s) = Some s.
Proof.
  intros Ha. apply (lstrip1_whitespace (String a "") s).
  by apply space_is_whitespace.
Qed.

Lemma lstrip1_nil : PyStr.lstrip1 "" = None.
Proof. reflexivity. Qed.

Lemma rstrip1_nil : PyStr.rstrip1 "" = None.
Proof. reflexivity. Qed.

Lemma whitespace_length ws :
  ws ∈ PyStr.whitespace → (0 < String.length ws)%nat.
Proof.
  intros (Hne & _)%whitespace_check. destruct ws; [done | simpl; lia].
Qed.

(** *** The loops *)

Lemma lstrip_go_stable (f1 f2 : nat) s :
  (String.length s ≤ f1)%nat → (String.length s ≤ f2)%nat →
  PyStr.lstrip_go f1 s = PyStr.lstrip_go f2 s.
Proof.
  revert f2 s. induction f1 as [|f1 IH]; intros f2 s H1 H2.
  - destruct s; [|simpl in H1; lia]. destruct f2; [done|].
    reflexivity.
  - destruct f2 as [|f2].
    { destruct s; [|simpl in H2; lia]. reflexivity. }
    simpl. destruct (PyStr.lstrip1 s) as [r|] eqn:Hr; [|done].
    destruct (lstrip1_Some _ _ Hr) as (ws & Hws%whitespace_length & ->).
    rewrite app_length in H1, H2. apply IH; lia.
Qed.

Lemma lstrip_unfold s :
  PyStr.lstrip s =
    match PyStr.lstrip1 s with
    | Some r => PyStr.lstrip r
    | None => s
    end.
Proof.
  unfold PyStr.lstrip at 1. destruct s as [|a s]; [done|].
  simpl. destruct (PyStr.lstrip1 (String a s)) as [r|] eqn:Hr; [|done].
  destruct (lstrip1_Some _ _ Hr) as (ws & Hws%whitespace_length & Heq).
  apply (f_equal String.length) in Heq. rewrite app_length in Heq.
  simpl in Heq. apply lstrip_go_stable; lia.
Qed.

Lemma rstrip_go_stable (f1 f2 : nat) s :
  (String.length s ≤ f1)%nat → (String.length s ≤ f2)%nat →
  PyStr.rstrip_go f1 s = PyStr.rstrip_go f2 s.
Proof.
  revert f2 s. induction f1 as [|f1 IH]; intros f2 s H1 H2.
  - destruct s; [|simpl in H1; lia]. destruct f2; [done|].
    reflexivity.
  - destruct f2 as [|f2].
    { destruct s; [|simpl in H2; lia]. reflexivity. }
    simpl. destruct (PyStr.rstrip1 s) as [r|] eqn:Hr; [|done].
    destruct (rstrip1_Some _ _ Hr) as (ws & Hws%whitespace_length & ->).
    rewrite app_length in H1, H2. apply IH; lia.
Qed.

Lemma rstrip_unfold s :
  PyStr.rstrip s =
    match PyStr.rstrip1 s with
    | Some r => PyStr.rstrip r
    | None => s
    end.
Proof.
  unfold PyStr.rstrip at 1. destruct s as [|a s]; [done|].
  simpl. destruct (PyStr.rstrip1 (String a s)) as [r|] eqn:Hr; [|done].
  destruct (rstrip1_Some _ _ Hr) as (ws & Hws%whitespace_length & Heq).
  apply (f_equal String.length) in Heq. rewrite app_length in Heq.
  simpl in Heq. apply rstrip_go_stable; lia.
Qed.

Lemma whitespace_run_nil : whitespace_run "".
Proof. by exists []. Qed.

Lemma whitespace_run_cons ws pad :
  ws ∈ PyStr.whitespace → whitespace_run pad → whitespace_run (ws +:+ pad).
Proof.
  intros Hws (l & Hl & ->). exists (ws :: l). split; [by constructor | done].
Qed.

Lemma whitespace_run_app pad pad' :
  whitespace_run pad → whitespace_run pad' → whitespace_run (pad +:+ pad').
Proof.
  intros (l & Hl & ->) Hpad'. induction Hl as [|ws l Hws _ IH]; simpl.
  - by rewrite app_nil_l.
  - rewrite app_assoc. by apply whitespace_run_cons.
Qed.

(** What [lstrip] removes is whitespace, and it leaves none in front. *)
Lemma lstrip_spec s :
  ∃ pad, whitespace_run pad ∧ s = pad +:+ PyStr.lstrip s ∧
         ¬ starts_with_whitespace (PyStr.lstrip s).
Proof.
  remember (String.length s) as n eqn:Hn. revert s Hn.
  induction n as [n IH] using lt_wf_ind. intros s ->.
  rewrite lstrip_unfold. destruct (PyStr.lstrip1 s) as [r|] eqn:Hr.
  - destruct (lstrip1_Some _ _ Hr) as (ws & Hws & ->).
    destruct (IH (String.length r)) with (s := r) as (pad & Hpad & Heq & Hno);
      [|done|].
    { rewrite app_length. pose proof (whitespace_length _ Hws). lia. }
    exists (ws +:+ pad). split_and!; [by apply whitespace_run_cons| |done].
    rewrite app_assoc. by rewrite <- Heq.
  - exists "". split_and!; [apply whitespace_run_nil | done |].
    by apply lstrip1_None.
Qed.

Lemma rstrip_spec s :
  ∃ pad, whitespace_run pad ∧ s = PyStr.rstrip s +:+ pad ∧
         ¬ ends_with_whitespace (PyStr.rstrip s).
Proof.
  remember (String.length s) as n eqn:Hn. revert s Hn.
  induction n as [n IH] using lt_wf_ind. intros s ->.
  rewrite rstrip_unfold. destruct (PyStr.rstrip1 s) as [r|] eqn:Hr.
  - destruct (rstrip1_Some _ _ Hr) as (ws & Hws & ->).
    destruct (IH (String.length r)) with (s := r) as (pad & Hpad & Heq & Hno);
      [|done|].
    { rewrite app_length. pose proof (whitespace_length _ Hws). lia. }
    exists (pad +:+ ws). split_and!; [| |done].
    + apply whitespace_run_app; [done|].
      rewrite <- (app_nil_r ws). apply whitespace_run_cons;
        [done | apply whitespace_run_nil].
    + rewrite <- app_assoc. by rewrite <- Heq.
  - exists "". split_and!; [apply whitespace_run_nil | by rewrite app_nil_r |].
    by apply rstrip1_None.
Qed.

(** [strip] removes whitespace at both ends and leaves none there. *)
Lemma strip_spec s :
  ∃ pad pad',
    s = pad +:+ PyStr.strip s +:+ pad' ∧
    whitespace_run pad ∧ whitespace_run pad' ∧
    ¬ starts_with_whitespace (PyStr.strip s) ∧
    ¬ ends_with_whitespace (PyStr.strip s).
Proof.
  unfold PyStr.strip.
  destruct (lstrip_spec s) as (pad & Hpad & Hs & Hstart).
  destruct (rstrip_spec (PyStr.lstrip s)) as (pad' & Hpad' & Ht & Hend).
  exists pad, pad'. split_and!; [by rewrite <- Ht | done | done | | done].
  intros (ws & Hws & Hprefix). apply Hstart. exists ws. split; [done|].
  rewrite Ht. by apply startswith_app_l.
Qed.

(** *** ASCII padding *)

Lemma lstrip_cons_space a s :
  Ascii.is_space a = true → PyStr.lstrip (String a s) = PyStr.lstrip s.
Proof. intros Ha. by rewrite lstrip_unfold, lstrip1_space. Qed.

Lemma lstrip_isspace_all (s : string) :
  PyStr.isspace_all s = true → PyStr.lstrip s = "".
Proof.
  induction s as [|a s IH]; simpl; [done|].
  intros [Ha Hs]%andb_true_iff. rewrite lstrip_cons_space by done. by apply IH.
Qed.

Lemma strip_isspace_all (s : string) :
  PyStr.isspace_all s = true → PyStr.strip s = "".
Proof. intros H. unfold PyStr.strip. by rewrite lstrip_isspace_all. Qed.


Lemma rstrip1_whitespace ws s :
  ws ∈ PyStr.whitespace → ∃ r, PyStr.rstrip1 (s +:+ ws) = Some r.
Proof.
  intros Hws. destruct (PyStr.rstrip1 (s +:+ ws)) as [r|] eqn:Hr; [by eexists|].
  apply rstrip1_None in Hr. destruct Hr. exists ws.
  split; [done | apply endswith_app].
Qed.

End StripFacts.

Section PyStrFacts2.

Lemma contains_app (c : ascii) (a b : string) :
  PyStr.contains c (a +:+ b) = PyStr.contains c a || PyStr.contains c b.
Proof.
  induction a as [|x a IH]; str_simpl; [done|]. by case_decide.
Qed.

Lemma rfind_absent (c : ascii) (s : string) :
  PyStr.contains c s = false → PyStr.rfind c s = None.
Proof.
  induction s as [|a s IH]; simpl; [done|].
  case_decide; [done|]. intros Hc. by rewrite IH.
Qed.

(** The last separator of [d/name] is the one after [d] when [name] has
    none. *)
Lemma rfind_child (d name : string) :
  PyStr.contains "/" name = false →
  PyStr.rfind "/" (d +:+ "/" +:+ name) = Some (String.length d).
Proof.
  intros H. induction d as [|a d IH].
  - str_simpl. by rewrite rfind_absent.
  - rewrite app_cons. simpl. by rewrite IH.
Qed.

Lemma parent_is_dir_child (m : gmap string node) (d name : string) :
  PyStr.contains "/" name = false →
  Os.parent_is_dir m (d +:+ "/" +:+ name) = bool_decide (m !! d = Some Dir).
Proof.
  intros H. unfold Os.parent_is_dir. by rewrite rfind_child, take_app.
Qed.

Lemma take_contains (c : ascii) (n : nat) (s : string) :
  PyStr.contains c s = false → PyStr.contains c (PyStr.take n s) = false.
Proof.
  revert s. induction n as [|n IH]; intros [|a s]; simpl; try done.
  case_decide; [done|]. apply IH.
Qed.

Lemma drop_contains (c : ascii) (n : nat) (s : string) :
  PyStr.contains c s = false → PyStr.contains c (PyStr.drop n s) = false.
Proof.
  revert s. induction n as [|n IH]; intros [|a s]; simpl; try done.
  case_decide; [done|]. apply IH.
Qed.

End PyStrFacts2.

Example strip_heading : PyStr.strip (PyStr.drop 2 ("#   Bug Fixes  " +:+ PyStr.LF)) = "Bug Fixes".
Proof. reflexivity. Qed.

Example strip_inner_space : PyStr.strip "  a  b  " = "a  b".
Proof. reflexivity. Qed.

(** U+00A0, U+001C and U+3000 are whitespace for [str.strip()]. *)
Example strip_unicode_whitespace :
  PyStr.strip (PyStr.utf8 0xA0 +:+ String "028" "" +:+ "Fixes" +:+
               PyStr.utf8 0x3000 +:+ PyStr.LF) = "Fixes".
Proof. reflexivity. Qed.

Example drop_last_short : PyStr.drop_last 3 "ab" = "".
Proof. reflexivity. Qed.

(** CR LF and a CR alone end a line and are read as LF. *)
Example readlines_universal_newlines :
  readlines ("# Fixes" +:+ String "013" PyStr.LF +:+ "one" +:+ String "013" "" +:+
             "two" +:+ PyStr.LF +:+ "last") =
    ["# Fixes" +:+ PyStr.LF; "one" +:+ PyStr.LF; "two" +:+ PyStr.LF; "last"].
Proof. reflexivity. Qed.

Example valid_utf8_samples :
  valid_utf8 ("caf" +:+ PyStr.utf8 0xE9) = true ∧
  valid_utf8 ("caf" +:+ String "233" "") = false ∧
  valid_utf8 (String "192" (String "128" "")) = false.
Proof. repeat split. Qed.

Example readlines_keeps_terminators :
  readlines ("# Fixes" +:+ PyStr.LF +:+ PyStr.LF +:+ "last") =
    ["# Fixes" +:+ PyStr.LF; PyStr.LF; "last"].
Proof. reflexivity. Qed.

Example uuid_hex_sample :
  uuid_hex Sample.uuid = "9f1c2d3e4b5a4f60a1b2c3d4e5f60718" ∧
  fragment_name "fix-crash" Sample.uuid = "fix-crash-a1b2c3d4e5f60718.md".
Proof. split; reflexivity. Qed.

Example uuid_hex_pads_with_zeros :
  uuid_hex 255 = "000000000000000000000000000000ff".
Proof. reflexivity. Qed.

(** ** The line scanner *)

Section Scanner.

Implicit Types (st : scan_state) (line name cur body : string)
               (lines blk pre rest : list string).

Lemma scan_line_heading st line :
  is_heading line = true →
  scan_line st line =
    inr {| sections := <[heading_name line := ""]> (sections st);
           current_section := Some (heading_name line) |}.
Proof. intros H. unfold scan_line. by rewrite H. Qed.

Lemma scan_line_body st line cur body :
  is_heading line = false →
  current_section st = Some cur →
  sections st !! cur = Some body →
  scan_line st line =
    inr {| sections := <[cur := body +:+ line]> (sections st);
           current_section := Some cur |}.
Proof. intros H Hc Hb. unfold scan_line. by rewrite H, Hc, Hb. Qed.

Lemma scan_line_idle st line :
  is_heading line = false →
  current_section st = None →
  scan_line st line = inr st.
Proof. intros H Hc. unfold scan_line. by rewrite H, Hc. Qed.

Lemma scan_init_inv : scan_inv scan_init.
Proof. intros cur. discriminate. Qed.

Lemma scan_line_inv st line :
  scan_inv st → ∃ st', scan_line st line = inr st' ∧ scan_inv st'.
Proof.
  intros Hinv. destruct (is_heading line) eqn:Hh.
  - eexists. split; [by apply scan_line_heading|].
    intros cur [= <-]. simpl. rewrite lookup_insert_eq. by eexists.
  - destruct (current_section st) as [cur|] eqn:Hc.
    + destruct (Hinv cur Hc) as [body Hb].
      eexists. split; [by eapply scan_line_body|].
      intros cur' [= <-]. simpl. rewrite lookup_insert_eq. by eexists.
    + exists st. split; [by apply scan_line_idle | done].
Qed.

Lemma scan_lines_inv st lines :
  scan_inv st → ∃ st', scan_lines st lines = inr st' ∧ scan_inv st'.
Proof.
  revert st. induction lines as [|line lines IH]; intros st Hinv; simpl.
  - by exists st.
  - destruct (scan_line_inv st line Hinv) as (st1 & -> & Hinv1).
    by apply IH.
Qed.

Lemma scan_lines_app st pre rest :
  scan_lines st (pre ++ rest) =
    match scan_lines st pre with
    | inr st' => scan_lines st' rest
    | inl e => inl e
    end.
Proof.
  revert st. induction pre as [|line pre IH]; intros st; simpl; [done|].
  destruct (scan_line st line); [done | apply IH].
Qed.

Lemma scan_lines_snoc st st' pre line :
  scan_lines st pre = inr st' →
  scan_lines st (pre ++ [line]) = scan_line st' line.
Proof.
  intros H. rewrite scan_lines_app, H. simpl. by destruct (scan_line st' line).
Qed.

(** Lines read before any heading leave the state alone. *)
Lemma scan_lines_idle st pre :
  Forall not_heading pre →
  current_section st = None →
  scan_lines st pre = inr st.
Proof.
  induction 1 as [|line pre Hl _ IH]; intros Hc; simpl; [done|].
  rewrite scan_line_idle by done. by apply IH.
Qed.

(** A block of body lines is appended, in order, to the current section. *)
Lemma scan_lines_block st blk cur body :
  Forall not_heading blk →
  current_section st = Some cur →
  sections st !! cur = Some body →
  scan_lines st blk =
    inr {| sections := <[cur := body +:+ PyStr.join blk]> (sections st);
           current_section := Some cur |}.
Proof.
  intros Hblk. revert st body.
  induction Hblk as [|line blk Hl _ IH]; intros st body Hc Hb; simpl.
  - rewrite app_nil_r, insert_id by done. by destruct st; simplify_eq/=.
  - erewrite scan_line_body by done.
    erewrite IH; [|done|by simpl; rewrite lookup_insert_eq].
    simpl. by rewrite insert_insert_eq, app_assoc.
Qed.

(** Lines that neither open nor continue section [name] do not touch its
    entry. *)
Lemma scan_lines_other st lines name :
  scan_inv st →
  current_section st ≠ Some name →
  Forall (λ line, is_heading line = true → heading_name line ≠ name) lines →
  ∃ st', scan_lines st lines = inr st' ∧
         sections st' !! name = sections st !! name ∧
         current_section st' ≠ Some name.
Proof.
  intros Hinv Hc Hl. revert st Hinv Hc.
  induction Hl as [|line lines Hline _ IH]; intros st Hinv Hc; simpl.
  - by exists st.
  - destruct (is_heading line) eqn:Hh.
    + rewrite scan_line_heading by done.
      edestruct IH as (st' & -> & Hs & Hc'); last first.
      * exists st'. split_and!; [done| |done].
        rewrite Hs. simpl. apply lookup_insert_ne. by apply Hline.
      * simpl. intros [= Heq]. by apply Hline.
      * intros cur [= <-]. simpl. rewrite lookup_insert_eq. by eexists.
    + destruct (current_section st) as [cur|] eqn:Hcur.
      * destruct (Hinv cur Hcur) as [body Hb].
        erewrite scan_line_body by done.
        edestruct IH as (st' & -> & Hs & Hc'); last first.
        -- exists st'. split_and!; [done| |done].
           rewrite Hs. simpl. apply lookup_insert_ne. congruence.
        -- done.
        -- intros cur' [= <-]. simpl. rewrite lookup_insert_eq. by eexists.
      * rewrite scan_line_idle by done. apply IH; [done|]. by rewrite Hcur.
Qed.

Lemma is_heading_iff line :
  is_heading line = true ↔ ∃ title : string, line = "# " +:+ title.
Proof.
  split.
  - apply startswith_inv.
  - intros [title ->]. apply startswith_app.
Qed.

Lemma heading_name_marker (title : string) :
  heading_name ("# " +:+ title) = PyStr.strip title.
Proof. reflexivity. Qed.

End Scanner.

(** ** Claims on the scanner *)

(** C5. The lines of a fragment are scanned in file order, each one in the
    state left by the lines before it.  A line that starts with ["# "] makes
    the rest of the line, stripped, the current section, and gives it an
    empty text; stripped means without the whitespace around it: the rest
    of the line is the name between two runs of whitespace characters, and
    the name neither starts nor ends with one.  Any other line is appended
    as it is, terminator included, to the text of the current section when
    there is one, and changes nothing otherwise.  No line raises. *)
Theorem scan_in_file_order (before : list string) (line : string) :
  ∃ st st',
    scan_lines scan_init before = inr st ∧
    scan_lines scan_init (before ++ [line]) = inr st' ∧
    scan_line st line = inr st' ∧
    ((∃ title pad name pad' : string,
        line = "# " +:+ title ∧
        title = pad +:+ name +:+ pad' ∧
        whitespace_run pad ∧ whitespace_run pad' ∧
        ¬ starts_with_whitespace name ∧ ¬ ends_with_whitespace name ∧
        name = PyStr.strip title ∧
        current_section st' = Some name ∧
        sections st' = <[name := ""]> (sections st)) ∨
     ((∀ title : string, line ≠ "# " +:+ title) ∧
      current_section st' = current_section st ∧
      match current_section st with
      | Some cur =>
          ∃ body, sections st !! cur = Some body ∧
                  sections st' = <[cur := body +:+ line]> (sections st)
      | None => sections st' = sections st
      end)).
Proof.
  destruct (scan_lines_inv scan_init before scan_init_inv) as (st & Hst & Hinv).
  destruct (scan_line_inv st line Hinv) as (st' & Hst' & _).
  exists st, st'. split_and!; [done| |done|].
  { by rewrite (scan_lines_snoc _ _ _ _ Hst). }
  destruct (is_heading line) eqn:Hh.
  - left. destruct (proj1 (is_heading_iff line) Hh) as [title ->].
    destruct (strip_spec title) as (pad & pad' & Htitle & Hpad & Hpad' & Hs & He).
    exists title, pad, (PyStr.strip title), pad'.
    rewrite scan_line_heading in Hst' by done. injection Hst' as <-.
    rewrite heading_name_marker. by split_and!.
  - right. split.
    { intros title ->.
      assert (is_heading ("# " +:+ title) = true) by apply startswith_app.
      congruence. }
    destruct (current_section st) as [cur|] eqn:Hc.
    + destruct (Hinv cur Hc) as [body Hb].
      rewrite (scan_line_body _ _ _ _ Hh Hc Hb) in Hst'. injection Hst' as <-.
      simpl. split; [done|]. by exists body.
    + rewrite scan_line_idle in Hst' by done. injection Hst' as <-.
      by rewrite Hc.
Qed.

(** C4. Lines read before the first heading are dropped: scanning them
    leaves the initial state (no section, no text), the scan cannot raise,
    and the sections of the file are those of the file without them. *)
Theorem leading_lines_discarded (pre rest : list string) :
  Forall not_heading pre →
  scan_lines scan_init pre = inr scan_init ∧
  parse_sections (pre ++ rest) = parse_sections rest ∧
  ∃ secs, parse_sections (pre ++ rest) = inr secs.
Proof.
  intros Hpre.
  assert (scan_lines scan_init pre = inr scan_init) as Hidle
    by by apply scan_lines_idle.
  assert (parse_sections (pre ++ rest) = parse_sections rest) as Heq.
  { unfold parse_sections. by rewrite scan_lines_app, Hidle. }
  split_and!; [done..|].
  rewrite Heq. unfold parse_sections.
  destruct (scan_lines_inv scan_init rest scan_init_inv) as (st & -> & _).
  by eexists.
Qed.

Lemma leading_lines_discarded_witness :
  Forall not_heading Sample.preamble ∧
  parse_sections (Sample.preamble ++ Sample.two_sections) =
    parse_sections Sample.two_sections.
Proof.
  assert (Forall not_heading Sample.preamble) as H.
  { repeat constructor. }
  split; [exact H|].
  exact (proj1 (proj2 (leading_lines_discarded _ Sample.two_sections H))).
Defined.

(** C10. A heading is a line that starts with the two characters ["# "]
    and nothing else is: a hash followed by another character, a lone hash
    and a deeper marker such as ["## "] are body lines, appended to the
    current section or dropped when there is none.  A heading whose
    remainder is made of whitespace only opens the section named [""]. *)
Theorem heading_needs_hash_space :
  (∀ line, is_heading line = true ↔ ∃ title : string, line = "# " +:+ title) ∧
  (∀ a rest, a ≠ " "%char → is_heading (String "#" (String a rest)) = false) ∧
  is_heading "#" = false ∧
  (∀ rest : string, is_heading ("## " +:+ rest) = false) ∧
  (∀ st line cur,
     is_heading line = false → scan_inv st → current_section st = Some cur →
     ∃ body, sections st !! cur = Some body ∧
             scan_line st line =
               inr {| sections := <[cur := body +:+ line]> (sections st);
                      current_section := Some cur |}) ∧
  (∀ st line,
     is_heading line = false → current_section st = None →
     scan_line st line = inr st) ∧
  (∀ st (blank : string),
     PyStr.isspace_all blank = true →
     scan_line st ("# " +:+ blank) =
       inr {| sections := <["" := ""]> (sections st);
              current_section := Some "" |}).
Proof.
  split_and!.
  - apply is_heading_iff.
  - intros a rest Ha. unfold is_heading, heading_marker. simpl.
    rewrite decide_False; [done|]. congruence.
  - done.
  - done.
  - intros st line cur Hh Hinv Hc. destruct (Hinv cur Hc) as [body Hb].
    exists body. split; [done|]. by apply scan_line_body.
  - intros st line. apply scan_line_idle.
  - intros st blank Hblank.
    rewrite scan_line_heading by apply startswith_app.
    by rewrite heading_name_marker, strip_isspace_all.
Qed.

(** C1, as the code has it.  A heading line resets the text of its section
    to the empty string, also when the section is already there.  So the
    entry of a name is the text of the last block under that name: when the
    file reads [pre], then a heading named [name], then the body lines
    [blk], and what follows ([rest]) is empty or starts with a heading and
    has no heading named [name], the entry of [name] is the concatenation
    of the raw lines of [blk], whatever [pre] holds. *)
Theorem repeated_heading_keeps_last_block
    (pre : list string) (h : string) (blk rest : list string) (name : string) :
  is_heading h = true →
  heading_name h = name →
  Forall not_heading blk →
  (rest = [] ∨ ∃ h' rest', rest = h' :: rest' ∧ is_heading h' = true) →
  Forall (λ line, is_heading line = true → heading_name line ≠ name) rest →
  ∃ secs, parse_sections (pre ++ h :: blk ++ rest) = inr secs ∧
          secs !! name = Some (PyStr.join blk).
Proof.
  intros Hh Hname Hblk Hrest Hother. unfold parse_sections.
  destruct (scan_lines_inv scan_init pre scan_init_inv) as (st0 & Hst0 & Hinv0).
  rewrite scan_lines_app, Hst0. simpl.
  rewrite scan_line_heading, Hname by done.
  rewrite scan_lines_app.
  erewrite scan_lines_block; [|done|done|by simpl; rewrite lookup_insert_eq].
  simpl. rewrite insert_insert_eq, app_nil_l.
  destruct Hrest as [-> | (h' & rest' & -> & Hh')].
  - simpl. eexists. split; [done|]. simpl. apply lookup_insert_eq.
  - simpl. rewrite scan_line_heading by done. simpl.
    apply Forall_cons in Hother as [Hh'name Hother].
    specialize (Hh'name Hh').
    destruct (scan_lines_other
      {| sections := <[heading_name h' := ""]>
                       (<[name := PyStr.join blk]> (sections st0));
         current_section := Some (heading_name h') |} rest' name)
      as (st3 & Hst3 & Hs & _); [| |done|].
    + intros cur [= <-]. simpl. rewrite lookup_insert_eq. by eexists.
    + simpl. congruence.
    + rewrite Hst3. exists (sections st3). split; [done|].
      rewrite Hs. simpl. rewrite lookup_insert_ne by done.
      apply lookup_insert_eq.
Qed.

Lemma repeated_heading_keeps_last_block_witness :
  ∃ secs, parse_sections Sample.repeated = inr secs ∧
          secs !! "Fixes" = Some ("Second fix." +:+ Sample.LF).
Proof.
  apply (repeated_heading_keeps_last_block
           ["# Fixes" +:+ Sample.LF; "First fix." +:+ Sample.LF]
           ("# Fixes" +:+ Sample.LF) ["Second fix." +:+ Sample.LF] [] "Fixes").
  - reflexivity.
  - reflexivity.
  - repeat constructor.
  - by left.
  - constructor.
Defined.

(** C1, as the documentation has it, fails: with the heading [Fixes] twice,
    the entry is the second block alone, and the text of the first block is
    lost. *)
Lemma repeated_heading_not_merged :
  count_headings "Fixes" Sample.repeated = 2 ∧
  parse_sections Sample.repeated = inr {[ "Fixes" := "Second fix." +:+ Sample.LF ]} ∧
  spec_merged_body "Fixes" Sample.repeated =
    "First fix." +:+ Sample.LF +:+ "Second fix." +:+ Sample.LF ∧
  ¬ ∃ secs, parse_sections Sample.repeated = inr secs ∧
            secs !! "Fixes" = Some (spec_merged_body "Fixes" Sample.repeated).
Proof.
  split_and!; [by vm_compute..|].
  intros (secs & Hp & Hl).
  vm_compute in Hp. injection Hp as <-. vm_compute in Hl. discriminate.
Qed.

(** ** Running tasks *)

Section TaskFacts.

Context (os_system : string → gmap string node → gmap string node * Z)
        (convert_text : string → string → string → option string)
        (safe_dump : gmap string (list string) → bool → string).

Implicit Types (w : world) (p name text : string) (e : exn).

Lemma bind_ok {A B} (m : task A) (k : A → task B) w a w' :
  m w = (inr a, w') → (m ≫= k) w = k a w'.
Proof. intros H. unfold mbind, task_bind. by rewrite H. Qed.

Lemma bind_err {A B} (m : task A) (k : A → task B) w e w' :
  m w = (inl e, w') → (m ≫= k) w = (inl e, w').
Proof. intros H. unfold mbind, task_bind. by rewrite H. Qed.

Lemma bind_assoc {A B C} (m : task A) (f : A → task B) (g : B → task C) w :
  ((m ≫= f) ≫= g) w = (m ≫= (λ a, f a ≫= g)) w.
Proof. unfold mbind, task_bind. by destruct (m w) as [[e|a] w1]. Qed.

Lemma open_read_ok p text w :
  fs w !! p = Some (File text) → valid_utf8 text = true →
  Os.open_read p w = (inr text, w).
Proof. intros H Hv. unfold Os.open_read. by rewrite H, Hv. Qed.

Lemma open_write_ok p w :
  Os.parent_is_dir (fs w) p = true →
  fs w !! p ≠ Some Dir →
  Os.open_write p w = (inr (), set_fs (insert p (File "")) w).
Proof.
  intros Hp Hd. unfold Os.open_write. rewrite Hp.
  by destruct (fs w !! p) as [[|?]|].
Qed.

Lemma file_write_ok p old data w :
  fs w !! p = Some (File old) →
  Os.file_write p data w = (inr (), set_fs (insert p (File (old +:+ data))) w).
Proof. intros H. unfold Os.file_write. by rewrite H. Qed.

Lemma remove_ok p text w :
  fs w !! p = Some (File text) →
  Os.remove p w = (inr (), set_fs (delete p) w).
Proof. intros H. unfold Os.remove. by rewrite H. Qed.

(** Every primitive that fails leaves the world as it found it. *)
Lemma open_read_cases p w :
  (∃ text, fs w !! p = Some (File text) ∧ Os.open_read p w = (inr text, w)) ∨
  (∃ e, Os.open_read p w = (inl e, w)).
Proof.
  unfold Os.open_read. destruct (fs w !! p) as [[|text]|]; eauto.
  destruct (valid_utf8 text); eauto.
Qed.

Lemma open_write_cases p w :
  Os.open_write p w = (inr (), set_fs (insert p (File "")) w) ∨
  Os.open_write p w = (inl (IOError p), w).
Proof.
  unfold Os.open_write. destruct (Os.parent_is_dir (fs w) p); [|by right].
  destruct (fs w !! p) as [[|?]|]; eauto.
Qed.

(** *** Paths *)

Lemma note_path_ne_fragment_path (a b : string) : note_path a ≠ fragment_path b.
Proof. unfold note_path, fragment_path. str_simpl. discriminate. Qed.

Lemma note_name_no_separator name :
  PyStr.contains "/" name = false → PyStr.contains "/" (note_name name) = false.
Proof.
  intros H. unfold note_name, PyStr.drop_last.
  rewrite contains_app, take_contains by done. done.
Qed.

Lemma parent_is_dir_note (m : gmap string node) name :
  PyStr.contains "/" name = false →
  Os.parent_is_dir m (note_path name) = bool_decide (m !! notes_dir = Some Dir).
Proof.
  intros H.
  apply (parent_is_dir_child m notes_dir (note_name name)).
  by apply note_name_no_separator.
Qed.


(** *** The conversion loop *)

Local Abbreviation rst_of := (to_rst convert_text).

Lemma convert_sections_spec (secs : gmap string string) :
  match convert_sections convert_text secs with
  | inr record => ∀ k, record !! k = secs !! k ≫= rst_of
  | inl e => ∃ k text, secs !! k = Some text ∧
                       convert_text text "rst" "markdown" = None ∧
                       e = ConversionError text
  end.
Proof.
  unfold convert_sections.
  apply (map_fold_weak_ind (λ (r : exn + gmap string (list string)) m,
    match r with
    | inr record => ∀ k, record !! k = m !! k ≫= rst_of
    | inl e => ∃ k text, m !! k = Some text ∧
                         convert_text text "rst" "markdown" = None ∧
                         e = ConversionError text
    end)).
  - intros k. by rewrite !lookup_empty.
  - intros i x m [e|out] Hi IH.
    + destruct IH as (k & text & Hk & Hnone & ->).
      exists k, text. split_and!; [|done..].
      rewrite lookup_insert_ne; [done|]. congruence.
    + destruct (convert_text x "rst" "markdown") as [rst|] eqn:Hx.
      * intros k. destruct (decide (i = k)) as [->|Hne].
        -- rewrite !lookup_insert_eq. simpl. unfold to_rst. by rewrite Hx.
        -- rewrite !lookup_insert_ne by done. apply IH.
      * exists i, x. by rewrite lookup_insert_eq.
Qed.

Lemma convert_sections_ok (secs : gmap string string) :
  map_Forall (λ _ text, is_Some (convert_text text "rst" "markdown")) secs →
  convert_sections convert_text secs = inr (omap rst_of secs).
Proof.
  intros Hall. pose proof (convert_sections_spec secs) as Hspec.
  destruct (convert_sections convert_text secs) as [e|record].
  - destruct Hspec as (k & text & Hk & Hnone & _).
    destruct (Hall k text Hk) as [? ?]. congruence.
  - f_equal. apply map_eq. intros k. by rewrite Hspec, lookup_omap.
Qed.

Lemma convert_sections_empty : convert_sections convert_text ∅ = inr ∅.
Proof. unfold convert_sections. by rewrite map_fold_empty. Qed.

(** *** One fragment *)

Local Abbreviation compile_one := (process_fragment convert_text safe_dump).
Local Abbreviation compile_all := (done_loop convert_text safe_dump).
Local Abbreviation compile := (done convert_text safe_dump).

(** The world after a fragment has been compiled into [record]. *)
Local Abbreviation compiled name record w :=
  (set_fs (λ m, delete (fragment_path name)
                  (<[note_path name := File (safe_dump record false)]> m)) w).

Lemma lift_ok {A B} (r : exn + A) (k : A → task B) a w :
  r = inr a → (lift r ≫= k) w = k a w.
Proof. by intros ->. Qed.

Lemma lift_err {A B} (r : exn + A) (k : A → task B) e w :
  r = inl e → (lift r ≫= k) w = (inl e, w).
Proof. by intros ->. Qed.

(** Once the note can be opened, nothing stands in the way. *)
Lemma write_and_remove name text record w :
  fs w !! fragment_path name = Some (File text) →
  Os.open_write (note_path name) w =
    (inr (), set_fs (insert (note_path name) (File "")) w) →
  (_ ← Os.open_write (note_path name);
   _ ← Os.file_write (note_path name) (safe_dump record false);
   Os.remove (fragment_path name)) w = (inr (), compiled name record w).
Proof.
  intros Hfrag Hopen.
  erewrite bind_ok by done.
  erewrite bind_ok; last first.
  { apply file_write_ok. simpl. apply lookup_insert_eq. }
  erewrite remove_ok; last first.
  { simpl. rewrite !lookup_insert_ne by apply note_path_ne_fragment_path.
    done. }
  unfold set_fs. simpl. by rewrite insert_insert_eq, app_nil_l.
Qed.

Lemma process_fragment_ok name text secs record w :
  fs w !! fragment_path name = Some (File text) →
  valid_utf8 text = true →
  parse_sections (readlines text) = inr secs →
  convert_sections convert_text secs = inr record →
  PyStr.contains "/" name = false →
  fs w !! notes_dir = Some Dir →
  fs w !! note_path name ≠ Some Dir →
  compile_one name w = (inr (), compiled name record w).
Proof.
  intros Hfrag Hvalid Hparse Hconv Hname Hnotes Hnote. unfold process_fragment.
  erewrite bind_ok by by apply open_read_ok.
  erewrite lift_ok by done. erewrite lift_ok by done.
  eapply write_and_remove; [done|].
  apply open_write_ok; [|done].
  rewrite parent_is_dir_note by done. by apply bool_decide_eq_true.
Qed.

(** A fragment is either compiled, or the task raises and nothing has
    been written. *)
Lemma process_fragment_cases name w :
  (∃ e, compile_one name w = (inl e, w)) ∨
  (∃ text secs record,
     fs w !! fragment_path name = Some (File text) ∧
     parse_sections (readlines text) = inr secs ∧
     convert_sections convert_text secs = inr record ∧
     compile_one name w = (inr (), compiled name record w)).
Proof.
  unfold process_fragment.
  destruct (open_read_cases (fragment_path name) w)
    as [(text & Hfrag & Hread) | [e Hread]]; last first.
  { left. eexists. by erewrite bind_err. }
  erewrite bind_ok by done.
  destruct (parse_sections (readlines text)) as [e|secs] eqn:Hparse.
  { left. eexists. by erewrite lift_err. }
  erewrite lift_ok by done.
  destruct (convert_sections convert_text secs) as [e|record] eqn:Hconv.
  { left. eexists. by erewrite lift_err. }
  erewrite lift_ok by done.
  destruct (open_write_cases (note_path name) w) as [Hopen | Hopen].
  - right. exists text, secs, record. split_and!; [done..|].
    by eapply write_and_remove.
  - left. eexists. by erewrite bind_err.
Qed.

Lemma done_loop_app (before rest : list string) w :
  compile_all (before ++ rest) w =
    match compile_all before w with
    | (inr _, w') => compile_all rest w'
    | (inl e, w') => (inl e, w')
    end.
Proof.
  revert w. induction before as [|name before IH]; intros w; simpl; [done|].
  unfold mbind, task_bind.
  destruct (compile_one name w) as [[e|[]] w']; [done | apply IH].
Qed.

(** The entries [os.listdir] returns are names, not paths. *)
Lemma listdir_no_separator (d : string) (names : list string) w w' :
  Os.listdir d w = (inr names, w') →
  Forall (λ name, PyStr.contains "/" name = false) names.
Proof.
  unfold Os.listdir. destruct (fs w !! d) as [[|?]|]; intros [= <- <-].
  apply Forall_forall. intros name (p & _ & Hchild)%list_elem_of_omap.
  unfold Os.child_of in Hchild.
  destruct (PyStr.startswith _ _); [|done].
  destruct (PyStr.contains "/" _) eqn:Hc; [done|].
  case_decide; [done|]. by injection Hchild as <-.
Qed.

End TaskFacts.

(** ** Claims on [done] *)

Section DoneClaims.

Context (convert_text : string → string → string → option string)
        (safe_dump : gmap string (list string) → bool → string).


(** C7. A fragment without any heading line, the empty file included,
    compiles to the empty record: the note holds the dump of the empty
    mapping and the fragment is removed.  The fragment is a text file (its
    bytes decode), its lines are those the loop reads (universal newlines),
    and the note can be written: the notes directory is there, no directory
    sits at the note path, and the note name is one the file system takes. *)
Theorem no_heading_gives_empty_record (name text : string) (w : world) :
  fs w !! fragment_path name = Some (File text) →
  valid_utf8 text = true →
  Forall not_heading (readlines text) →
  PyStr.contains "/" name = false →
  ascii_tail name →
  name_fits (note_name name) →
  fs w !! notes_dir = Some Dir →
  fs w !! note_path name ≠ Some Dir →
  parse_sections (readlines text) = inr ∅ ∧
  convert_sections convert_text ∅ = inr ∅ ∧
  ∃ w', process_fragment convert_text safe_dump name w = (inr (), w') ∧
        fs w' !! note_path name = Some (File (safe_dump ∅ false)) ∧
        fs w' !! fragment_path name = None.
Proof.
  intros Hfrag Hvalid Hlines Hname _ _ Hnotes Hnote.
  assert (parse_sections (readlines text) = inr ∅) as Hparse.
  { unfold parse_sections. by rewrite scan_lines_idle. }
  split_and!; [done | apply convert_sections_empty |].
  eexists. split.
  - eapply process_fragment_ok;
      [done | done | done | apply convert_sections_empty | done | done | done].
  - simpl. split; [|apply lookup_delete_eq].
    rewrite lookup_delete_ne by apply not_eq_sym, note_path_ne_fragment_path.
    apply lookup_insert_eq.
Qed.

(** C2. A fragment made of the section [Bug Fixes] followed by the section
    [Features] compiles to the record with exactly these two keys, each
    bound to the one-element list holding the conversion of the text of its
    section; the note holds the dump of that record and the fragment is
    removed.  The fragment is a text file (its bytes decode), its lines are
    those the loop reads (universal newlines: the text of a section has LF
    line ends), and the note can be written: the notes directory is there,
    no directory sits at the note path, and the note name is one the file
    system takes. *)
Theorem two_sections_compiled
    (name text h1 h2 : string) (b1 b2 : list string) (r1 r2 : string) (w : world) :
  fs w !! fragment_path name = Some (File text) →
  valid_utf8 text = true →
  readlines text = h1 :: b1 ++ h2 :: b2 →
  is_heading h1 = true → heading_name h1 = "Bug Fixes" →
  is_heading h2 = true → heading_name h2 = "Features" →
  Forall not_heading b1 → Forall not_heading b2 →
  convert_text (PyStr.join b1) "rst" "markdown" = Some r1 →
  convert_text (PyStr.join b2) "rst" "markdown" = Some r2 →
  PyStr.contains "/" name = false →
  ascii_tail name →
  name_fits (note_name name) →
  fs w !! notes_dir = Some Dir →
  fs w !! note_path name ≠ Some Dir →
  ∃ (record : gmap string (list string)) w',
    record = {[ "Bug Fixes" := [r1]; "Features" := [r2] ]} ∧
    dom record = {[ "Bug Fixes"; "Features" ]} ∧
    process_fragment convert_text safe_dump name w = (inr (), w') ∧
    fs w' !! note_path name = Some (File (safe_dump record false)) ∧
    fs w' !! fragment_path name = None.
Proof.
  intros Hfrag Hvalid Hlines Hh1 Hn1 Hh2 Hn2 Hb1 Hb2 Hr1 Hr2 Hname _ _
    Hnotes Hnote.
  set (secs := ({[ "Bug Fixes" := PyStr.join b1; "Features" := PyStr.join b2 ]}
                  : gmap string string)).
  assert (parse_sections (readlines text) = inr secs) as Hparse.
  { rewrite Hlines. unfold parse_sections. simpl.
    rewrite scan_line_heading, Hn1 by done.
    rewrite scan_lines_app.
    erewrite scan_lines_block; [|done|done|by simpl; rewrite lookup_insert_eq].
    simpl. rewrite scan_line_heading, Hn2 by done.
    erewrite scan_lines_block; [|done|done|by simpl; rewrite lookup_insert_eq].
    simpl. reflexivity. }
  assert (convert_sections convert_text secs =
            inr {[ "Bug Fixes" := [r1]; "Features" := [r2] ]}) as Hconv.
  { rewrite convert_sections_ok.
    - f_equal. apply map_eq. intros k. rewrite lookup_omap. unfold secs.
      destruct (decide (k = "Bug Fixes")) as [->|Hbf].
      { rewrite !lookup_insert_eq. simpl. unfold to_rst. by rewrite Hr1. }
      rewrite !lookup_insert_ne by done.
      destruct (decide (k = "Features")) as [->|Hf].
      { rewrite !lookup_singleton_eq. simpl. unfold to_rst. by rewrite Hr2. }
      by rewrite !lookup_singleton_ne by done.
    - unfold secs. intros k v.
      rewrite lookup_insert_Some, lookup_singleton_Some.
      intros [[_ <-] | [_ [_ <-]]]; by eexists. }
  eexists _, _. split_and!; [done| |by eapply process_fragment_ok|..].
  - by rewrite dom_insert_L, dom_singleton_L.
  - simpl.
    rewrite lookup_delete_ne by apply not_eq_sym, note_path_ne_fragment_path.
    apply lookup_insert_eq.
  - simpl. apply lookup_delete_eq.
Qed.

(** C3. The fragment is removed last, once its note is written.  When
    compiling a fragment raises - while the fragment is read, a section is
    converted or the note is written - the fragment is what it was, and
    [done] stops there with that exception.  A fragment that is gone has its
    record in the notes directory. *)
Theorem fragment_removed_after_note_written
    (name : string) (w : world) (res : exn + unit) (w' : world) :
  process_fragment convert_text safe_dump name w = (res, w') →
  (∀ e, res = inl e →
     fs w' !! fragment_path name = fs w !! fragment_path name ∧
     ∀ (before rest : list string) (w0 : world),
       Os.listdir staging_dir w0 = (inr (before ++ name :: rest)%list, w0) →
       done_loop convert_text safe_dump before w0 = (inr (), w) →
       done convert_text safe_dump w0 = (inl e, w')) ∧
  (is_Some (fs w !! fragment_path name) →
   fs w' !! fragment_path name = None →
   res = inr () ∧
   ∃ record, fs w' !! note_path name = Some (File (safe_dump record false))).
Proof.
  intros Hrun.
  destruct (process_fragment_cases convert_text safe_dump name w)
    as [[e He] | (text & secs & record & Hfrag & _ & _ & Hok)].
  - rewrite He in Hrun. injection Hrun as <- <-. split.
    + intros e' [= <-]. split; [done|].
      intros before rest w0 Hls Hbefore. unfold done.
      erewrite bind_ok by done.
      rewrite done_loop_app, Hbefore. simpl.
      by erewrite bind_err.
    + intros [n Hn] Hgone. congruence.
  - rewrite Hok in Hrun. injection Hrun as <- <-. split; [done|].
    intros _ _. split; [done|]. exists record. simpl.
    rewrite lookup_delete_ne by apply not_eq_sym, note_path_ne_fragment_path.
    apply lookup_insert_eq.
Qed.

End DoneClaims.

(** ** The random suffix *)

Section Hex.

Lemma hex_digit_is_hex (d : N) : is_hex_char (hex_digit d) = true.
Proof.
  destruct d as [|p]; [done|].
  do 4 (destruct p as [p|p|]; try done).
Qed.

Lemma hex_digits_length (width : nat) (n : N) (acc : string) :
  String.length (hex_digits width n acc) = width + String.length acc.
Proof.
  revert n acc. induction width as [|width IH]; intros n acc; simpl; [done|].
  rewrite IH. simpl. lia.
Qed.

Lemma hex_digits_all_hex (width : nat) (n : N) (acc : string) :
  all_hex acc = true → all_hex (hex_digits width n acc) = true.
Proof.
  revert n acc. induction width as [|width IH]; intros n acc Hacc; simpl; [done|].
  apply IH. simpl. by rewrite hex_digit_is_hex.
Qed.

Lemma all_hex_drop (k : nat) (s : string) :
  all_hex s = true → all_hex (PyStr.drop k s) = true.
Proof.
  revert s. induction k as [|k IH]; intros [|a s]; simpl; try done.
  intros [_ H]%andb_true_iff. by apply IH.
Qed.

Lemma all_hex_no_separator (s : string) :
  all_hex s = true → PyStr.contains "/" s = false.
Proof.
  induction s as [|a s IH]; simpl; [done|].
  intros [Ha Hs]%andb_true_iff. case_decide; [by subst a | by apply IH].
Qed.

Lemma suffix_length (u : N) : String.length (PyStr.drop 16 (uuid_hex u)) = 16.
Proof. rewrite drop_length. unfold uuid_hex. by rewrite hex_digits_length. Qed.

Lemma suffix_all_hex (u : N) : all_hex (PyStr.drop 16 (uuid_hex u)) = true.
Proof. apply all_hex_drop. unfold uuid_hex. by apply hex_digits_all_hex. Qed.

Lemma fragment_name_no_separator (title : string) (u : N) :
  PyStr.contains "/" title = false →
  PyStr.contains "/" (fragment_name title u) = false.
Proof.
  intros H. unfold fragment_name.
  rewrite !contains_app, H, (all_hex_no_separator _ (suffix_all_hex u)). done.
Qed.

Lemma release_note_path_inj (title : string) (u u' : N) :
  release_note_path title u = release_note_path title u' →
  PyStr.drop 16 (uuid_hex u) = PyStr.drop 16 (uuid_hex u').
Proof.
  unfold release_note_path, fragment_name. intros H.
  do 3 apply String.app_inj in H. by apply app_inv_tail in H.
Qed.

End Hex.

(** ** Claims on [new] *)

Section NewClaims.

Context (os_system : string → gmap string node → gmap string node * Z).

(** The staging directory is there once the first statement has run,
    unless a regular file bars its way. *)
Lemma ensure_staging (w : world) :
  (∀ text, fs w !! staging_dir ≠ Some (File text)) →
  (present ← Os.path_exists staging_dir;
   if present : bool then mret () else Os.makedirs staging_dir) w =
    (inr (), set_fs (insert staging_dir Dir) w).
Proof.
  intros Hstaging. unfold mbind, task_bind, Os.path_exists.
  destruct (fs w !! staging_dir) as [[|text]|] eqn:Hs.
  - rewrite bool_decide_eq_true_2 by by eexists.
    unfold mret, task_ret, set_fs. rewrite insert_id by done. by destruct w.
  - by destruct (Hstaging text).
  - rewrite bool_decide_eq_false_2 by by intros [? ?].
    unfold Os.makedirs. by rewrite Hs.
Qed.

(** The run of [new] for a title that is a plain file-name component. *)
Lemma new_run (u : N) (title : string) (w : world) :
  PyStr.contains "/" title = false →
  (∀ text, fs w !! staging_dir ≠ Some (File text)) →
  fs w !! release_note_path title u ≠ Some Dir →
  let path := release_note_path title u in
  let created := <[path := File ""]> (<[staging_dir := Dir]> (fs w)) in
  new os_system u title w =
    (inr (),
     match environ w !! "EDITOR" with
     | None =>
         {| fs := created; environ := environ w;
            stdout := (stdout w ++ ["Please edit " +:+ path +:+ " manualy"])
                        ++ [done_reminder] |}
     | Some editor =>
         {| fs := (os_system (editor +:+ " " +:+ path) created).1;
            environ := environ w;
            stdout := stdout w ++ [done_reminder] |}
     end).
Proof.
  intros Htitle Hstaging Hpath path created. unfold new.
  rewrite <- bind_assoc.
  erewrite bind_ok by by apply ensure_staging.
  erewrite bind_ok; last first.
  { apply open_write_ok.
    - unfold release_note_path. simpl.
      rewrite (parent_is_dir_child _ staging_dir (fragment_name title u))
        by by apply fragment_name_no_separator.
      apply bool_decide_eq_true. apply lookup_insert_eq.
    - simpl. rewrite lookup_insert_ne; [done|].
      unfold release_note_path, staging_dir. intros Heq.
      apply (f_equal String.length) in Heq. rewrite app_length in Heq.
      simpl in Heq. lia. }
  unfold mbind, task_bind, Os.getenv, system, Os.print, mret, task_ret. simpl.
  destruct (environ w !! "EDITOR") as [editor|] eqn:Heditor; simpl; [|done].
  rewrite Heditor. simpl. fold path. fold created.
  by destruct (os_system (editor +:+ " " +:+ path) created).
Qed.

(** C8, as the code has it.  For a title without path separator, short
    enough that the file system takes the name [<title>-<suffix>.md] (at
    most 255 bytes, none of them NUL), in a checkout where [.changelog] is
    a directory or absent and the generated name is free, [new] creates one
    empty file, [.changelog/<title>-<suffix>.md] with a suffix of 16
    hexadecimal digits: the file system handed to the editor, or left
    behind when there is none, is the former one with the staging directory
    and that one new empty file.  Draws with different suffixes give
    different paths. *)
Theorem new_creates_one_fragment (u : N) (title : string) (w : world) :
  PyStr.contains "/" title = false →
  name_fits (fragment_name title u) →
  (∀ text, fs w !! staging_dir ≠ Some (File text)) →
  fs w !! release_note_path title u = None →
  let suffix := PyStr.drop 16 (uuid_hex u) in
  let path := ".changelog/" +:+ title +:+ "-" +:+ suffix +:+ ".md" in
  let created := <[path := File ""]> (<[".changelog" := Dir]> (fs w)) in
  String.length suffix = 16 ∧ all_hex suffix = true ∧
  (∃ w', new os_system u title w = (inr (), w') ∧
         fs w' = match environ w !! "EDITOR" with
                 | None => created
                 | Some editor => (os_system (editor +:+ " " +:+ path) created).1
                 end) ∧
  created !! path = Some (File "") ∧
  (∀ p, p ≠ path → p ≠ ".changelog" → created !! p = fs w !! p) ∧
  (∀ u', PyStr.drop 16 (uuid_hex u') ≠ suffix → release_note_path title u' ≠ path).
Proof.
  intros Htitle _ Hstaging Hfree suffix path created.
  split_and!.
  - apply suffix_length.
  - apply suffix_all_hex.
  - eexists. split.
    + apply new_run; [done | done | by rewrite Hfree].
    + by destruct (environ w !! "EDITOR").
  - apply lookup_insert_eq.
  - intros p Hp Hs. unfold created. by rewrite !lookup_insert_ne.
  - intros u' Hne Heq. apply Hne. by apply (release_note_path_inj title).
Qed.


End NewClaims.

(** ** The claims at sample inputs *)



Example spec_replace_extension_md :
  spec_replace_extension "foo-abc123.md" ".yaml" = note_name "foo-abc123.md".
Proof. reflexivity. Qed.

Lemma no_heading_gives_empty_record_witness :
  parse_sections (readlines Sample.plain_text) = inr ∅ ∧
  convert_sections Sample.convert_text ∅ = inr ∅ ∧
  ∃ w', process_fragment Sample.convert_text Sample.safe_dump Sample.fragment
          (Sample.staged Sample.fragment Sample.plain_text) = (inr (), w') ∧
        fs w' !! note_path Sample.fragment =
          Some (File (Sample.safe_dump ∅ false)) ∧
        fs w' !! fragment_path Sample.fragment = None.
Proof.
  apply (no_heading_gives_empty_record Sample.convert_text Sample.safe_dump
           Sample.fragment Sample.plain_text
           (Sample.staged Sample.fragment Sample.plain_text)).
  - reflexivity.
  - reflexivity.
  - repeat constructor.
  - reflexivity.
  - reflexivity.
  - split; [vm_compute; lia | reflexivity].
  - reflexivity.
  - vm_compute. discriminate.
Defined.

Example empty_fragment_compiled :
  done Sample.convert_text Sample.safe_dump (Sample.staged Sample.fragment "") =
  (inr (),
   {| fs := {[ ".changelog" := Dir;
               "releasenotes/notes" := Dir;
               "releasenotes/notes/foo-abc123.yaml" := File (Sample.safe_dump ∅ false) ]};
      environ := ∅; stdout := [] |}).
Proof. vm_compute. reflexivity. Qed.

Lemma two_sections_compiled_witness :
  ∃ (record : gmap string (list string)) w',
    record = {[ "Bug Fixes" := ["Fixed the thing." +:+ Sample.LF +:+ "(markdown to rst)"];
                "Features" := ["Added the other thing." +:+ Sample.LF +:+ "(markdown to rst)"] ]} ∧
    dom record = {[ "Bug Fixes"; "Features" ]} ∧
    process_fragment Sample.convert_text Sample.safe_dump Sample.fragment
      (Sample.staged Sample.fragment Sample.two_sections_text) = (inr (), w') ∧
    fs w' !! note_path Sample.fragment =
      Some (File (Sample.safe_dump record false)) ∧
    fs w' !! fragment_path Sample.fragment = None.
Proof.
  apply (two_sections_compiled Sample.convert_text Sample.safe_dump
           Sample.fragment Sample.two_sections_text
           ("# Bug Fixes" +:+ Sample.LF) ("# Features" +:+ Sample.LF)
           ["Fixed the thing." +:+ Sample.LF]
           ["Added the other thing." +:+ Sample.LF]).
  - reflexivity.
  - reflexivity.
  - reflexivity.
  - reflexivity.
  - reflexivity.
  - reflexivity.
  - reflexivity.
  - repeat constructor.
  - repeat constructor.
  - reflexivity.
  - reflexivity.
  - reflexivity.
  - reflexivity.
  - split; [vm_compute; lia | reflexivity].
  - reflexivity.
  - vm_compute. discriminate.
Defined.

(** Without pandoc the conversion raises: the fragment stays and [done]
    stops. *)
Lemma fragment_removed_after_note_written_witness :
  let w := Sample.staged Sample.fragment Sample.two_sections_text in
  let e := ConversionError ("Fixed the thing." +:+ Sample.LF) in
  process_fragment Sample.no_pandoc Sample.safe_dump Sample.fragment w = (inl e, w) ∧
  fs w !! fragment_path Sample.fragment = Some (File Sample.two_sections_text) ∧
  done Sample.no_pandoc Sample.safe_dump w = (inl e, w).
Proof.
  intros w e.
  assert (process_fragment Sample.no_pandoc Sample.safe_dump Sample.fragment w
            = (inl e, w)) as Hrun by (vm_compute; reflexivity).
  destruct (fragment_removed_after_note_written Sample.no_pandoc
              Sample.safe_dump Sample.fragment w (inl e) w Hrun) as [Herr _].
  destruct (Herr e eq_refl) as [Hkept Hdone].
  split_and!; [exact Hrun | reflexivity |].
  apply (Hdone [] [] w); vm_compute; reflexivity.
Defined.

(** The ways of failing, each leaving the fragment in place. *)
Example read_error_keeps_entry :
  let w := {| fs := {[ ".changelog" := Dir; ".changelog/drafts" := Dir;
                       "releasenotes/notes" := Dir ]};
              environ := ∅; stdout := [] |} in
  done Sample.convert_text Sample.safe_dump w = (inl (IOError ".changelog/drafts"), w).
Proof. vm_compute. reflexivity. Qed.

Example undecodable_fragment_keeps_fragment :
  let w := Sample.staged Sample.fragment ("# Fixes" +:+ PyStr.LF +:+ String "255" "") in
  done Sample.convert_text Sample.safe_dump w =
    (inl (UnicodeDecodeError ".changelog/foo-abc123.md"), w).
Proof. vm_compute. reflexivity. Qed.

Example write_error_keeps_fragment :
  let w := Sample.staged_no_notes Sample.fragment Sample.two_sections_text in
  done Sample.convert_text Sample.safe_dump w =
    (inl (IOError "releasenotes/notes/foo-abc123.yaml"), w).
Proof. vm_compute. reflexivity. Qed.

Example done_end_to_end :
  done Sample.convert_text Sample.safe_dump
    (Sample.staged Sample.fragment Sample.two_sections_text) =
  (inr (),
   {| fs := {[ ".changelog" := Dir;
               "releasenotes/notes" := Dir;
               "releasenotes/notes/foo-abc123.yaml" :=
                 File (Sample.safe_dump
                   {[ "Bug Fixes" := ["Fixed the thing." +:+ Sample.LF +:+ "(markdown to rst)"];
                      "Features" := ["Added the other thing." +:+ Sample.LF +:+ "(markdown to rst)"] ]}
                   false) ]};
      environ := ∅; stdout := [] |}).
Proof. vm_compute. reflexivity. Qed.

Lemma new_creates_one_fragment_witness :
  (∃ w', new Sample.no_editor Sample.uuid "fix-crash" Sample.empty_world = (inr (), w') ∧
         fs w' = {[ ".changelog/fix-crash-a1b2c3d4e5f60718.md" := File "";
                    ".changelog" := Dir ]}) ∧
  release_note_path "fix-crash" Sample.other_uuid ≠
    ".changelog/fix-crash-a1b2c3d4e5f60718.md".
Proof.
  destruct (new_creates_one_fragment Sample.no_editor Sample.uuid "fix-crash"
              Sample.empty_world) as (_ & _ & Hnew & _ & _ & Hdistinct).
  - reflexivity.
  - split; [vm_compute; lia | reflexivity].
  - intros text. vm_compute. discriminate.
  - reflexivity.
  - split; [exact Hnew|]. apply Hdistinct. vm_compute. discriminate.
Defined.

(** C8, as the documentation has it, fails for a title with a path
    separator: in a fresh checkout the directory [.changelog/fix] does not
    exist, opening the file raises, and no fragment has been created. *)
Lemma new_title_with_separator_raises :
  PyStr.contains "/" "fix/crash" = true ∧
  new Sample.no_editor Sample.uuid "fix/crash" Sample.empty_world =
    (inl (IOError ".changelog/fix/crash-a1b2c3d4e5f60718.md"),
     {| fs := {[ ".changelog" := Dir ]}; environ := ∅; stdout := [] |}).
Proof. split; vm_compute; reflexivity. Qed.



(** * Further properties *)

(** ** Section names and section bodies *)

Section ScannerMore.

Implicit Types (st : scan_state) (line title body pad : string)
               (lines : list string).

Lemma last_char_snoc (s : string) (a : ascii) :
  last_char s = Some a → ∃ r, s = r +:+ String a "".
Proof.
  induction s as [|c s IH]; [done|]. destruct s as [|d s].
  - intros [= <-]. by exists "".
  - intros H. destruct (IH H) as [r Hr]. exists (String c r).
    by rewrite app_cons, <- Hr.
Qed.

Lemma last_char_app (s t : string) :
  t ≠ "" → last_char (s +:+ t) = last_char t.
Proof.
  intros Ht. induction s as [|c s IH]; [done|]. rewrite app_cons.
  destruct (s +:+ t) as [|d u] eqn:Hu.
  - destruct s; [|done]. rewrite app_nil_l in Hu. done.
  - change (last_char (String c (String d u))) with (last_char (String d u)).
    done.
Qed.

Lemma last_char_contains (s : string) (a : ascii) :
  last_char s = Some a → s = String a "" ∨ PyStr.contains a (PyStr.drop 1 s) = true.
Proof.
  intros [r ->]%last_char_snoc. destruct r as [|c r]; [by left|].
  right. rewrite app_cons. simpl. rewrite contains_app. simpl.
  rewrite decide_True by done. apply orb_true_r.
Qed.

Lemma rstrip_snoc_space (s : string) (a : ascii) :
  Ascii.is_space a = true →
  PyStr.rstrip (s +:+ String a "") = PyStr.rstrip s.
Proof.
  intros Ha. rewrite rstrip_unfold.
  destruct (rstrip1_whitespace (String a "") s (space_is_whitespace a Ha))
    as [r Hr].
  rewrite Hr. destruct (rstrip1_Some _ _ Hr) as (ws & Hws & Heq).
  destruct (whitespace_check ws Hws) as (Hne & Htail & _).
  assert (last_char ws = Some a) as Hlast.
  { rewrite <- (last_char_app r ws Hne), <- Heq. by rewrite last_char_app. }
  destruct (last_char_contains _ _ Hlast) as [-> | Hc].
  - by apply app_inv_tail in Heq as ->.
  - rewrite Htail in Hc by done. done.
Qed.

Lemma rstrip_pad (s : string) pad :
  PyStr.isspace_all pad = true → PyStr.rstrip (s +:+ pad) = PyStr.rstrip s.
Proof.
  revert s. induction pad as [|c pad IH]; intros s.
  - by rewrite app_nil_r.
  - simpl. intros [Hc Hpad]%andb_true_iff.
    change (String c pad) with (String c "" +:+ pad).
    rewrite <- app_assoc, IH by done. by apply rstrip_snoc_space.
Qed.

Lemma lstrip_whitespace (ws s : string) :
  ws ∈ PyStr.whitespace → PyStr.lstrip (ws +:+ s) = PyStr.lstrip s.
Proof. intros Hws. by rewrite lstrip_unfold, lstrip1_whitespace. Qed.

(** Padding behind a string that does not start with whitespace does not
    make it start with whitespace. *)
Lemma lstrip1_app_pad (t pad : string) :
  t ≠ "" → PyStr.lstrip1 t = None → PyStr.isspace_all pad = true →
  PyStr.lstrip1 (t +:+ pad) = None.
Proof.
  intros Ht Hnone Hpad. apply lstrip1_None. intros (ws & Hws & Hs).
  destruct (startswith_app_cases _ _ _ Hs) as [Hl | (v & Hv & -> & Hy)].
  - apply lstrip1_None in Hnone. apply Hnone. by exists ws.
  - destruct (whitespace_check _ Hws) as (_ & Htail & _).
    destruct t as [|c t]; [done|]. destruct v as [|a v]; [done|].
    destruct pad as [|b pad]; [done|]. simpl in Hy, Hpad.
    case_decide; [subst b | done].
    apply andb_true_iff in Hpad as [Ha _].
    specialize (Htail a Ha). rewrite app_cons in Htail. simpl in Htail.
    rewrite contains_app in Htail. simpl in Htail.
    rewrite decide_True in Htail by done.
    by rewrite orb_true_r in Htail.
Qed.

Lemma strip_pad_r (s : string) pad :
  PyStr.isspace_all pad = true → PyStr.strip (s +:+ pad) = PyStr.strip s.
Proof.
  intros Hpad. unfold PyStr.strip.
  remember (String.length s) as n eqn:Hn. revert s Hn.
  induction n as [n IH] using lt_wf_ind. intros s ->.
  destruct (PyStr.lstrip1 s) as [r|] eqn:Hr.
  - destruct (lstrip1_Some _ _ Hr) as (ws & Hws & ->).
    rewrite app_assoc, (lstrip_whitespace ws (r +:+ pad)),
      (lstrip_whitespace ws r) by done.
    apply (IH (String.length r)); [|done].
    rewrite app_length. pose proof (whitespace_length _ Hws). lia.
  - destruct s as [|c s].
    + rewrite app_nil_l. by rewrite lstrip_isspace_all.
    + rewrite (lstrip_unfold (String c s +:+ pad)), lstrip1_app_pad by done.
      rewrite (lstrip_unfold (String c s)), Hr. by apply rstrip_pad.
Qed.




Lemma scan_lines_dom st lines :
  scan_inv st →
  ∃ st', scan_lines st lines = inr st' ∧
         dom (sections st') = dom (sections st) ∪ heading_names lines.
Proof.
  revert st. induction lines as [|line lines IH]; intros st Hinv; simpl.
  - exists st. split; [done|]. unfold heading_names. simpl. set_solver.
  - destruct (scan_line_inv st line Hinv) as (st1 & Hst1 & Hinv1).
    rewrite Hst1. destruct (IH st1 Hinv1) as (st' & -> & Hdom).
    exists st'. split; [done|]. rewrite Hdom. unfold heading_names.
    destruct (is_heading line) eqn:Hh.
    + rewrite scan_line_heading in Hst1 by done. injection Hst1 as <-.
      rewrite filter_cons_True by done. simpl.
      rewrite dom_insert_L. set_solver.
    + rewrite filter_cons_False by congruence.
      destruct (current_section st) as [cur|] eqn:Hc.
      * destruct (Hinv cur Hc) as [body Hb].
        rewrite (scan_line_body _ _ _ _ Hh Hc Hb) in Hst1.
        injection Hst1 as <-. simpl. rewrite dom_insert_L.
        assert (cur ∈ dom (sections st)) by by apply elem_of_dom.
        set_solver.
      * rewrite scan_line_idle in Hst1 by done. by injection Hst1 as <-.
Qed.

(** X3. Reading a file never raises, and the keys of the resulting
    dictionary are exactly the names of the heading lines of the file: a
    section without body lines has its key, and text without heading has
    none. *)
Theorem sections_keys_are_heading_names (lines : list string) :
  ∃ secs, parse_sections lines = inr secs ∧ dom secs = heading_names lines.
Proof.
  destruct (scan_lines_dom scan_init lines scan_init_inv) as (st & Hst & Hdom).
  exists (sections st). unfold parse_sections. rewrite Hst. split; [done|].
  rewrite Hdom. simpl. set_solver.
Qed.

(** The lines the loop reads, put together, are the text with its line
    ends translated. *)
Lemma join_readlines (text : string) :
  PyStr.join (readlines text) = universal_newlines text.
Proof.
  induction text as [|a text IH]; [done|].
  cbn [readlines universal_newlines].
  destruct (decide (a = "010"%char)) as [->|Hlf].
  { rewrite decide_False by done. cbn [PyStr.join]. by rewrite IH. }
  destruct (decide (a = "013"%char)) as [->|Hcr].
  - destruct text as [|b text]; [done|].
    destruct (decide (b = "010"%char)) as [->|Hb].
    + cbn [readlines universal_newlines] in IH.
      rewrite decide_True, decide_False in IH by done.
      cbn [PyStr.join] in IH |- *. unfold PyStr.LF in *.
      rewrite !app_cons, !app_nil_l in IH |- *. done.
    + cbn [PyStr.join]. by rewrite IH.
  - destruct (readlines text) as [|line rest]; cbn [PyStr.join] in IH |- *.
    + by rewrite <- IH, app_nil_r.
    + by rewrite app_cons, IH.
Qed.

Lemma universal_newlines_id (text : string) :
  PyStr.contains "013" text = false → universal_newlines text = text.
Proof.
  induction text as [|a text IH]; [done|]. simpl.
  destruct (decide (a = "013"%char)) as [|Ha]; [done|].
  intros Hcr. by rewrite IH.
Qed.

Lemma readlines_first_line (line text : string) :
  PyStr.contains "010" line = false →
  PyStr.contains "013" line = false →
  readlines (line +:+ PyStr.LF +:+ text) = (line +:+ PyStr.LF) :: readlines text.
Proof.
  induction line as [|a line IH]; intros Hlf Hcr.
  - reflexivity.
  - simpl in Hlf, Hcr.
    destruct (decide (a = "010"%char)) as [|Ha]; [done|].
    destruct (decide (a = "013"%char)) as [|Hb]; [done|].
    rewrite !app_cons. cbn [readlines].
    rewrite !decide_False by done.
    by rewrite IH.
Qed.

(** X4. A fragment made of one heading line followed by text without
    heading yields one section, named by the stripped title, whose body is
    that text as the loop reads it, that is with CR LF and CR read as LF;
    a body without CR is kept character for character. *)
Theorem single_section_body (title body : string) :
  PyStr.contains "010" title = false →
  PyStr.contains "013" title = false →
  Forall not_heading (readlines body) →
  parse_sections (readlines ("# " +:+ title +:+ PyStr.LF +:+ body)) =
    inr {[ PyStr.strip title := universal_newlines body ]} ∧
  (PyStr.contains "013" body = false → universal_newlines body = body).
Proof.
  intros Hlf Hcr Hbody. split; [|apply universal_newlines_id].
  rewrite <- (app_assoc "# " title), (readlines_first_line ("# " +:+ title))
    by done.
  unfold parse_sections. cbn [scan_lines].
  rewrite scan_line_heading by (rewrite app_assoc; apply startswith_app).
  rewrite app_assoc, heading_name_marker, strip_pad_r by done.
  erewrite scan_lines_block; [|done|done|by simpl; rewrite lookup_insert_eq].
  simpl. by rewrite insert_insert_eq, app_nil_l, join_readlines, insert_empty.
Qed.

End ScannerMore.

(** ** Whole runs of [done] *)

Section DoneMore.

Context (convert_text : string → string → string → option string)
        (safe_dump : gmap string (list string) → bool → string).

Implicit Types (w : world) (p name : string) (names : list string).

Lemma convert_sections_values (secs : gmap string string) :
  match convert_sections convert_text secs with
  | inr record =>
      ∀ k body, secs !! k = Some body →
        ∃ rst, convert_text body "rst" "markdown" = Some rst ∧
               record !! k = Some [rst]
  | inl _ => True
  end.
Proof.
  unfold convert_sections.
  apply (map_fold_weak_ind (λ (r : exn + gmap string (list string)) m,
    match r with
    | inr record =>
        ∀ k body, m !! k = Some body →
          ∃ rst, convert_text body "rst" "markdown" = Some rst ∧
                 record !! k = Some [rst]
    | inl _ => True
    end)).
  - intros k body. by rewrite lookup_empty.
  - intros i x m [e|out] Hi IH; [done|].
    destruct (convert_text x "rst" "markdown") as [rst|] eqn:Hx; [|done].
    intros k body. destruct (decide (i = k)) as [->|Hne].
    + rewrite lookup_insert_eq. intros [= <-]. exists rst.
      by rewrite lookup_insert_eq.
    + rewrite !lookup_insert_ne by done. apply IH.
Qed.

(** X5. The conversion loop is all or nothing, whatever the order in which
    the dictionary is walked: it raises exactly when some section fails to
    convert, and otherwise the record has the keys of the sections, each
    bound to the one-element list of its converted text. *)
Theorem convert_sections_all_or_nothing (secs : gmap string string) :
  match convert_sections convert_text secs with
  | inr record =>
      dom record = dom secs ∧
      ∀ k body, secs !! k = Some body →
        ∃ rst, convert_text body "rst" "markdown" = Some rst ∧
               record !! k = Some [rst]
  | inl e =>
      ∃ k body, secs !! k = Some body ∧
                convert_text body "rst" "markdown" = None ∧
                e = ConversionError body
  end.
Proof.
  pose proof (convert_sections_spec convert_text secs) as Hspec.
  pose proof (convert_sections_values secs) as Hvalues.
  destruct (convert_sections convert_text secs) as [e|record]; [done|].
  split; [|done].
  apply set_eq. intros k. rewrite !elem_of_dom. split.
  - intros [l Hl]. specialize (Hspec k). rewrite Hl in Hspec.
    destruct (secs !! k); [by eexists | done].
  - intros [body Hk]. destruct (Hvalues k body Hk) as (rst & _ & Hr).
    by eexists.
Qed.

(** *** What one fragment changes *)

Lemma fragment_path_in_staging name :
  PyStr.startswith ".changelog/" (fragment_path name) = true.
Proof. apply startswith_app. Qed.

Lemma note_path_not_in_staging name :
  PyStr.startswith ".changelog/" (note_path name) = false.
Proof. reflexivity. Qed.

Lemma process_fragment_world name w (res : exn + unit) w' :
  process_fragment convert_text safe_dump name w = (res, w') →
  w' = w ∨
  ∃ text record,
    fs w !! fragment_path name = Some (File text) ∧
    res = inr () ∧
    w' = set_fs (λ m, delete (fragment_path name)
                        (<[note_path name := File (safe_dump record false)]> m)) w.
Proof.
  intros Hrun.
  destruct (process_fragment_cases convert_text safe_dump name w)
    as [[e He] | (text & secs & record & Hfrag & _ & _ & Hok)].
  - rewrite He in Hrun. left. by injection Hrun.
  - rewrite Hok in Hrun. right. exists text, record.
    by injection Hrun as <- <-.
Qed.

Lemma process_fragment_frame name w (res : exn + unit) w' :
  process_fragment convert_text safe_dump name w = (res, w') →
  environ w' = environ w ∧ stdout w' = stdout w ∧
  (∀ p, p ≠ fragment_path name → p ≠ note_path name → fs w' !! p = fs w !! p) ∧
  (∀ p, PyStr.startswith ".changelog/" p = true →
        fs w !! p = None → fs w' !! p = None) ∧
  (∀ p, PyStr.startswith ".changelog/" p = false →
        is_note safe_dump (fs w) p → is_note safe_dump (fs w') p).
Proof.
  intros [-> | (text & record & Hfrag & -> & ->)]%process_fragment_world; [done|].
  unfold set_fs. cbn [fs environ stdout]. split_and!; [done..| | |].
  - intros p Hf Hn. by rewrite lookup_delete_ne, lookup_insert_ne.
  - intros p Hp Hnone. destruct (decide (p = fragment_path name)) as [->|Hf].
    { apply lookup_delete_eq. }
    rewrite lookup_delete_ne by done. rewrite lookup_insert_ne; [done|].
    intros <-. by rewrite note_path_not_in_staging in Hp.
  - intros p Hp Hnote.
    assert (p ≠ fragment_path name) as Hf.
    { intros ->. by rewrite fragment_path_in_staging in Hp. }
    unfold is_note in *. rewrite lookup_delete_ne by done.
    destruct (decide (p = note_path name)) as [->|Hn].
    + exists record. apply lookup_insert_eq.
    + by rewrite lookup_insert_ne.
Qed.

Lemma done_loop_frame names w (res : exn + unit) w' :
  done_loop convert_text safe_dump names w = (res, w') →
  environ w' = environ w ∧ stdout w' = stdout w ∧
  (∀ p, (∀ n, n ∈ names → p ≠ fragment_path n ∧ p ≠ note_path n) →
        fs w' !! p = fs w !! p) ∧
  (∀ p, PyStr.startswith ".changelog/" p = true →
        fs w !! p = None → fs w' !! p = None) ∧
  (∀ p, PyStr.startswith ".changelog/" p = false →
        is_note safe_dump (fs w) p → is_note safe_dump (fs w') p).
Proof.
  revert w. induction names as [|name names IH]; intros w; simpl.
  { by intros [= <- <-]. }
  unfold mbind, task_bind.
  destruct (process_fragment convert_text safe_dump name w) as [[e|[]] w1] eqn:H1.
  - intros [= <- <-].
    destruct (process_fragment_frame _ _ _ _ H1) as (He & Hs & Hf & Hg & Hn).
    split_and!; [done..| |done|done].
    intros p Hp. destruct (Hp name) as [? ?]; [by left|]. by apply Hf.
  - intros Hrest.
    destruct (process_fragment_frame _ _ _ _ H1) as (He & Hs & Hf & Hg & Hn).
    destruct (IH _ Hrest) as (He' & Hs' & Hf' & Hg' & Hn').
    split_and!; [congruence | congruence | | by auto | by auto].
    intros p Hp. rewrite Hf'.
    + destruct (Hp name) as [? ?]; [by left|]. by apply Hf.
    + intros n Hin. apply Hp. by right.
Qed.

(** *** What [os.listdir] returns *)

Lemma child_of_Some (d p n : string) :
  Os.child_of d p = Some n →
  p = d +:+ "/" +:+ n ∧ PyStr.contains "/" n = false ∧ n ≠ "".
Proof.
  unfold Os.child_of.
  destruct (PyStr.startswith (d +:+ "/") p) eqn:Hs; [|done].
  destruct (startswith_inv _ _ Hs) as [r ->].
  replace (String.length d + 1) with (String.length (d +:+ "/"))
    by (rewrite app_length; reflexivity).
  rewrite drop_app.
  destruct (PyStr.contains "/" r) eqn:Hc; [done|].
  case_decide; [done|]. intros [= <-]. by rewrite app_assoc.
Qed.

Lemma child_of_fragment (n : string) :
  PyStr.contains "/" n = false → n ≠ "" →
  Os.child_of staging_dir (fragment_path n) = Some n.
Proof.
  intros Hn Hne. unfold Os.child_of.
  change (fragment_path n) with ((staging_dir +:+ "/") +:+ n).
  rewrite startswith_app.
  replace (String.length staging_dir + 1)
    with (String.length (staging_dir +:+ "/")) by reflexivity.
  rewrite drop_app, Hn. by rewrite decide_False.
Qed.

Lemma NoDup_omap_inj {A B} (f : A → option B) (l : list A) :
  (∀ x y z, f x = Some z → f y = Some z → x = y) →
  NoDup l → NoDup (omap f l).
Proof.
  intros Hinj. induction 1 as [|x l Hx Hl IH]; simpl; [constructor|].
  destruct (f x) as [z|] eqn:Hfx; [|done].
  constructor; [|done].
  intros (y & Hy & Hfy)%list_elem_of_omap.
  by rewrite <- (Hinj _ _ _ Hfx Hfy) in Hy.
Qed.

Lemma listdir_staging w names w' :
  Os.listdir staging_dir w = (inr names, w') →
  w' = w ∧ fs w !! staging_dir = Some Dir ∧ NoDup names ∧
  ∀ n, n ∈ names ↔
       PyStr.contains "/" n = false ∧ n ≠ "" ∧
       is_Some (fs w !! fragment_path n).
Proof.
  unfold Os.listdir.
  destruct (fs w !! staging_dir) as [[|?]|] eqn:Hs; intros [= <- <-].
  split_and!; [done..| |].
  - apply NoDup_omap_inj; [|apply NoDup_elements].
    intros x y z [-> _]%child_of_Some [-> _]%child_of_Some. done.
  - intros n. rewrite list_elem_of_omap. split.
    + intros (p & Hp & (-> & Hn & Hne)%child_of_Some).
      split_and!; [done..|]. by apply elem_of_elements, elem_of_dom in Hp.
    + intros (Hn & Hne & Hin). exists (fragment_path n). split.
      * by apply elem_of_elements, elem_of_dom.
      * by apply child_of_fragment.
Qed.

Lemma omap_all_None {A B} (f : A → option B) (l : list A) :
  (∀ x, x ∈ l → f x = None) → omap f l = [].
Proof.
  induction l as [|x l IH]; intros H; simpl; [done|].
  rewrite (H x) by by left. apply IH. intros y Hy. apply H. by right.
Qed.

(** *** A run over fragments that all compile *)

Lemma done_loop_ok names w :
  NoDup names →
  Forall (λ n, PyStr.contains "/" n = false) names →
  fs w !! notes_dir = Some Dir →
  (∀ n, n ∈ names →
     ∃ text, fs w !! fragment_path n = Some (File text) ∧
             valid_utf8 text = true ∧
             convertible convert_text text ∧
             fs w !! note_path n ≠ Some Dir) →
  ∃ w', done_loop convert_text safe_dump names w = (inr (), w') ∧
        ∀ n, n ∈ names →
          fs w' !! fragment_path n = None ∧
          is_note safe_dump (fs w') (note_path n).
Proof.
  intros Hnodup. revert w.
  induction Hnodup as [|name names Hname Hnodup IH]; intros w Hsep Hnotes Hall.
  { exists w. split; [done|]. intros n Hn. by apply elem_of_nil in Hn. }
  apply Forall_cons in Hsep as [Hsep1 Hsep].
  destruct (Hall name) as (text & Hfrag & Hvalid & Hconv & Hnote); [by left|].
  destruct (scan_lines_inv scan_init (readlines text) scan_init_inv)
    as (st & Hst & _).
  assert (parse_sections (readlines text) = inr (sections st)) as Hparse.
  { unfold parse_sections. by rewrite Hst. }
  pose proof (convert_sections_ok convert_text _ (Hconv _ Hparse)) as Hrecord.
  pose proof (process_fragment_ok convert_text safe_dump name text _ _ w
                Hfrag Hvalid Hparse Hrecord Hsep1 Hnotes Hnote) as Hrun.
  set (w1 := set_fs _ w) in Hrun.
  destruct (process_fragment_frame _ _ _ _ Hrun) as (_ & _ & Hf & _ & _).
  destruct (IH w1) as (w' & Hloop & Hdone).
  - done.
  - rewrite Hf; [done|by intros [=]|].
    intros Heq. apply (f_equal String.length) in Heq.
    unfold note_path in Heq. rewrite app_length in Heq. simpl in Heq. lia.
  - intros n Hn.
    destruct (Hall n) as (text' & Hfrag' & Hvalid' & Hconv' & Hnote'); [by right|].
    exists text'. split_and!; [|done|done|].
    + rewrite Hf; [done| |apply not_eq_sym, note_path_ne_fragment_path].
      unfold fragment_path. intros Heq%String.app_inj. set_solver.
    + destruct (decide (note_path n = note_path name)) as [Heq|Hne].
      * rewrite Heq. unfold w1. simpl.
        rewrite lookup_delete_ne by apply not_eq_sym, note_path_ne_fragment_path.
        by rewrite lookup_insert_eq.
      * rewrite Hf; [done|apply note_path_ne_fragment_path|done].
  - exists w'. split.
    { simpl. by erewrite bind_ok. }
    destruct (done_loop_frame _ _ _ _ Hloop) as (_ & _ & _ & Hgone & Hkept).
    intros n [->|Hn]%elem_of_cons; [|by apply Hdone].
    split.
    + apply Hgone; [apply fragment_path_in_staging|]. apply lookup_delete_eq.
    + apply Hkept; [apply note_path_not_in_staging|].
      eexists. unfold w1. simpl.
      rewrite lookup_delete_ne by apply not_eq_sym, note_path_ne_fragment_path.
      apply lookup_insert_eq.
Qed.

Lemma done_run w names :
  Os.listdir staging_dir w = (inr names, w) →
  fs w !! notes_dir = Some Dir →
  (∀ n, n ∈ names →
     ∃ text, fs w !! fragment_path n = Some (File text) ∧
             valid_utf8 text = true ∧
             convertible convert_text text ∧
             fs w !! note_path n ≠ Some Dir) →
  ∃ w', done convert_text safe_dump w = (inr (), w') ∧
        (∀ n, n ∈ names →
           fs w' !! fragment_path n = None ∧
           is_note safe_dump (fs w') (note_path n)) ∧
        Os.listdir staging_dir w' = (inr [], w').
Proof.
  intros Hls Hnotes Hall.
  destruct (listdir_staging _ _ _ Hls) as (_ & Hstaging & Hnodup & Hnames).
  destruct (done_loop_ok names w) as (w' & Hloop & Hdone); [done| |done|done|].
  { apply Forall_forall. intros n Hn. by apply Hnames in Hn as (? & _). }
  exists w'. split_and!; [|done|].
  { unfold done. by erewrite bind_ok. }
  destruct (done_loop_frame _ _ _ _ Hloop) as (_ & _ & Hframe & Hgone & _).
  unfold Os.listdir. rewrite Hframe, Hstaging; last first.
  { intros n _. split; [|by intros [=]].
    intros Heq. apply (f_equal String.length) in Heq.
    unfold fragment_path in Heq. rewrite app_length in Heq. simpl in Heq. lia. }
  rewrite omap_all_None; [done|].
  intros p Hp%elem_of_elements%elem_of_dom.
  destruct (Os.child_of staging_dir p) as [n|] eqn:Hchild; [|done].
  destruct (child_of_Some _ _ _ Hchild) as (Heq & Hn & Hne).
  change (staging_dir +:+ "/" +:+ n) with (fragment_path n) in Heq. subst p.
  destruct (fs w !! fragment_path n) as [x|] eqn:Hw.
  - destruct (Hdone n) as [Hnone _].
    { apply Hnames. split_and!; [done..|]. by eexists. }
    rewrite Hnone in Hp. by destruct Hp.
  - rewrite Hgone in Hp; [by destruct Hp|apply fragment_path_in_staging|done].
Qed.

(** X6. [done] writes under [releasenotes/notes/] and removes under
    [.changelog/], and does nothing else: whether it returns or raises, every
    other path holds what it held, nothing is printed and the environment
    is as it was. *)
Theorem done_touches_only_its_directories w (res : exn + unit) w' :
  done convert_text safe_dump w = (res, w') →
  environ w' = environ w ∧ stdout w' = stdout w ∧
  ∀ p, PyStr.startswith ".changelog/" p = false →
       PyStr.startswith "releasenotes/notes/" p = false →
       fs w' !! p = fs w !! p.
Proof.
  unfold done, mbind, task_bind.
  destruct (Os.listdir staging_dir w) as [[e|names] w1] eqn:Hls.
  - assert (w1 = w) as ->.
    { unfold Os.listdir in Hls.
      destruct (fs w !! staging_dir) as [[|?]|]; by simplify_eq. }
    by intros [= <- <-].
  - destruct (listdir_staging _ _ _ Hls) as (-> & _). intros Hloop.
    destruct (done_loop_frame _ _ _ _ Hloop) as (He & Hs & Hframe & _).
    split_and!; [done..|]. intros p Hstaging Hnotes. apply Hframe.
    intros n _. split; intros ->.
    + by rewrite fragment_path_in_staging in Hstaging.
    + unfold note_path in Hnotes. by rewrite startswith_app in Hnotes.
Qed.

(** X7. With nothing staged, [done] has nothing to do: it returns at once
    when [.changelog] is a directory without entries, and raises the error
    of [os.listdir] when there is no such directory; either way the world
    is unchanged. *)
Theorem done_with_nothing_staged w :
  (∀ n, fs w !! fragment_path n = None) →
  done convert_text safe_dump w =
    (match fs w !! staging_dir with
     | Some Dir => inr ()
     | _ => inl (IOError ".changelog")
     end, w).
Proof.
  intros Hnone. unfold done, mbind, task_bind, Os.listdir.
  destruct (fs w !! staging_dir) as [[|?]|]; [|done..].
  rewrite omap_all_None; [done|].
  intros p Hp%elem_of_elements%elem_of_dom.
  destruct (Os.child_of staging_dir p) as [n|] eqn:Hchild; [|done].
  destruct (child_of_Some _ _ _ Hchild) as (Heq & _).
  change (staging_dir +:+ "/" +:+ n) with (fragment_path n) in Heq. subst p.
  rewrite Hnone in Hp. by destruct Hp.
Qed.

(** X8. When the notes directory exists and every entry of the staging
    directory is a regular file of valid UTF-8 whose sections all convert,
    with a name whose last three characters are ASCII and whose note name
    the file system accepts (and no directory sits where a note goes),
    [done] returns normally, every fragment is gone, each has a dumped
    record at its note path, and the staging directory is left without
    entries. *)
Theorem done_compiles_every_fragment w names :
  Os.listdir staging_dir w = (inr names, w) →
  fs w !! notes_dir = Some Dir →
  (∀ n, n ∈ names →
     ascii_tail n ∧ name_fits (note_name n) ∧
     ∃ text, fs w !! fragment_path n = Some (File text) ∧
             valid_utf8 text = true ∧
             convertible convert_text text ∧
             fs w !! note_path n ≠ Some Dir) →
  ∃ w', done convert_text safe_dump w = (inr (), w') ∧
        (∀ n, n ∈ names →
           fs w' !! fragment_path n = None ∧
           ∃ record, fs w' !! note_path n = Some (File (safe_dump record false))) ∧
        Os.listdir staging_dir w' = (inr [], w').
Proof.
  intros Hls Hnotes Hall. apply done_run; [done..|].
  intros n Hn. by destruct (Hall n Hn) as (_ & _ & Hn').
Qed.

(** X9. After a run of [done] that compiled everything (fragments as in
    X8), a second run finds nothing to do: it returns normally and changes
    nothing. *)
Theorem done_again_changes_nothing w names :
  Os.listdir staging_dir w = (inr names, w) →
  fs w !! notes_dir = Some Dir →
  (∀ n, n ∈ names →
     ascii_tail n ∧ name_fits (note_name n) ∧
     ∃ text, fs w !! fragment_path n = Some (File text) ∧
             valid_utf8 text = true ∧
             convertible convert_text text ∧
             fs w !! note_path n ≠ Some Dir) →
  ∃ w', done convert_text safe_dump w = (inr (), w') ∧
        done convert_text safe_dump w' = (inr (), w').
Proof.
  intros Hls Hnotes Hall.
  destruct (done_run w names Hls Hnotes) as (w' & Hdone & _ & Hempty).
  { intros n Hn. by destruct (Hall n Hn) as (_ & _ & Hn'). }
  exists w'. split; [done|]. unfold done.
  erewrite bind_ok by exact Hempty. reflexivity.
Qed.

(** X10. Two fragments whose names differ only in their last three
    characters share a note path: compiled one after the other, both are
    removed and the note holds the record of the second; the record of the
    first is overwritten.  The fragments hold valid UTF-8, the last three
    characters of their names are ASCII and the file system accepts the
    note name. *)
Theorem colliding_notes_last_wins
    (n1 n2 text1 text2 : string) (secs1 secs2 : gmap string string)
    (record1 record2 : gmap string (list string)) w :
  n1 ≠ n2 →
  note_name n1 = note_name n2 →
  PyStr.contains "/" n1 = false → PyStr.contains "/" n2 = false →
  ascii_tail n1 → ascii_tail n2 → name_fits (note_name n1) →
  fs w !! fragment_path n1 = Some (File text1) →
  fs w !! fragment_path n2 = Some (File text2) →
  valid_utf8 text1 = true → valid_utf8 text2 = true →
  parse_sections (readlines text1) = inr secs1 →
  parse_sections (readlines text2) = inr secs2 →
  convert_sections convert_text secs1 = inr record1 →
  convert_sections convert_text secs2 = inr record2 →
  fs w !! notes_dir = Some Dir →
  fs w !! note_path n1 ≠ Some Dir →
  ∃ w', done_loop convert_text safe_dump [n1; n2] w = (inr (), w') ∧
        fs w' !! note_path n1 = Some (File (safe_dump record2 false)) ∧
        fs w' !! fragment_path n1 = None ∧
        fs w' !! fragment_path n2 = None.
Proof.
  intros Hne Hnote Hs1 Hs2 _ _ _ Hf1 Hf2 Hv1 Hv2 Hp1 Hp2 Hc1 Hc2 Hnotes Hdir.
  assert (note_path n1 = note_path n2) as Hpath.
  { unfold note_path. by rewrite Hnote. }
  assert (fragment_path n2 ≠ fragment_path n1) as Hfrag.
  { unfold fragment_path. intros Heq%String.app_inj. done. }
  pose proof (process_fragment_ok convert_text safe_dump n1 text1 _ _ w
                Hf1 Hv1 Hp1 Hc1 Hs1 Hnotes Hdir) as Hrun1.
  set (w1 := set_fs _ w) in Hrun1.
  destruct (process_fragment_frame _ _ _ _ Hrun1) as (_ & _ & Hframe & _ & _).
  assert (fs w1 !! note_path n2 = Some (File (safe_dump record1 false))) as Hn2.
  { rewrite <- Hpath. unfold w1, set_fs. cbn [fs].
    rewrite lookup_delete_ne by apply not_eq_sym, note_path_ne_fragment_path.
    apply lookup_insert_eq. }
  assert (fs w1 !! fragment_path n2 = Some (File text2)) as Hf2'.
  { rewrite Hframe; [done|done|].
    apply not_eq_sym, note_path_ne_fragment_path. }
  assert (fs w1 !! notes_dir = Some Dir) as Hnotes'.
  { rewrite Hframe; [done|by intros [=]|].
    intros Heq. apply (f_equal String.length) in Heq.
    unfold note_path in Heq. rewrite app_length in Heq. simpl in Heq. lia. }
  assert (fs w1 !! note_path n2 ≠ Some Dir) as Hdir' by by rewrite Hn2.
  pose proof (process_fragment_ok convert_text safe_dump n2 text2 secs2 record2
                w1 Hf2' Hv2 Hp2 Hc2 Hs2 Hnotes' Hdir') as Hrun2.
  eexists. split.
  { simpl. erewrite bind_ok by exact Hrun1. erewrite bind_ok by exact Hrun2.
    reflexivity. }
  unfold w1, set_fs. cbn [fs]. rewrite Hpath. split_and!.
  - rewrite lookup_delete_ne by apply not_eq_sym, note_path_ne_fragment_path.
    apply lookup_insert_eq.
  - rewrite lookup_delete_ne by done.
    rewrite lookup_insert_ne by (rewrite <- Hpath; apply note_path_ne_fragment_path).
    apply lookup_delete_eq.
  - apply lookup_delete_eq.
Qed.

End DoneMore.

(** ** The suffix of a fragment name *)

Section SuffixMore.

Local Open Scope N_scope.

Lemma hex_val_digit (d : N) : d < 16 → hex_val (hex_digit d) = d.
Proof.
  intros Hd. destruct d as [|p]; [done|].
  do 4 (destruct p as [p|p|]; try done); lia.
Qed.

Lemma hex_digits_acc (width : nat) (n : N) (acc : string) :
  hex_digits width n acc = hex_digits width n "" +:+ acc.
Proof.
  revert n acc. induction width as [|width IH]; intros n acc; simpl; [done|].
  rewrite (IH _ (String _ acc)), (IH _ (String _ "")).
  by rewrite app_assoc.
Qed.

Lemma hex_digits_succ (width : nat) (n : N) :
  hex_digits (S width) n "" =
    hex_digits width (n / 16) "" +:+ String (hex_digit (n mod 16)) "".
Proof. simpl. apply hex_digits_acc. Qed.

Lemma hex_digits_split (high low : nat) (n : N) :
  hex_digits (high + low) n "" =
    hex_digits high (n / 16 ^ N.of_nat low) "" +:+ hex_digits low n "".
Proof.
  revert n. induction low as [|low IH]; intros n.
  - rewrite Nat.add_0_r. simpl. by rewrite N.div_1_r, app_nil_r.
  - rewrite Nat.add_succ_r, !hex_digits_succ, IH, app_assoc.
    rewrite Nat2N.inj_succ, N.pow_succ_r', N.Div0.div_div. done.
Qed.

Lemma app_inj_length (a b c d : string) :
  String.length a = String.length c → a +:+ b = c +:+ d → a = c ∧ b = d.
Proof.
  revert c. induction a as [|x a IH]; intros [|y c] Hlen Heq; try done.
  rewrite !app_cons in Heq. injection Heq as -> Heq.
  destruct (IH c) as [-> ->]; [by injection Hlen|done|done].
Qed.

Lemma hex_digits_same (width : nat) (n m : N) :
  hex_digits width n "" = hex_digits width m "" ↔
  n mod 16 ^ N.of_nat width = m mod 16 ^ N.of_nat width.
Proof.
  revert n m. induction width as [|width IH]; intros n m.
  - simpl. by rewrite !N.mod_1_r.
  - rewrite !hex_digits_succ, Nat2N.inj_succ, N.pow_succ_r'.
    rewrite !N.Div0.mod_mul_r.
    pose proof (N.mod_upper_bound n 16 ltac:(done)) as Hn.
    pose proof (N.mod_upper_bound m 16 ltac:(done)) as Hm.
    split.
    + intros [Hhigh Hlow]%app_inj_length;
        [|by rewrite !hex_digits_length].
      apply IH in Hhigh. injection Hlow as Hlow.
      apply (f_equal hex_val) in Hlow. rewrite !hex_val_digit in Hlow by done.
      by rewrite Hhigh, Hlow.
    + intros Heq.
      assert (n mod 16 = m mod 16 ∧
              (n / 16) mod 16 ^ N.of_nat width = (m / 16) mod 16 ^ N.of_nat width)
        as [Hlow Hhigh].
      { revert Hn Hm Heq.
        generalize (n mod 16) (m mod 16) ((n / 16) mod 16 ^ N.of_nat width)
                   ((m / 16) mod 16 ^ N.of_nat width).
        intros a b c d. lia. }
      apply IH in Hhigh. by rewrite Hhigh, Hlow.
Qed.

Lemma suffix_is_low_digits (u : N) :
  PyStr.drop 16 (uuid_hex u) = hex_digits 16 u "".
Proof.
  unfold uuid_hex. rewrite (hex_digits_split 16 16).
  replace 16%nat with (String.length (hex_digits 16 (u / 16 ^ N.of_nat 16) ""))
    at 1 by by rewrite hex_digits_length.
  apply drop_app.
Qed.

(** X11. Only the low 64 bits of the UUID reach the file name: two draws
    give the same fragment name for a title exactly when they agree modulo
    [2 ^ 64]. *)
Theorem fragment_name_depends_on_low_64_bits (title : string) (u u' : N) :
  fragment_name title u = fragment_name title u' ↔ u mod 2 ^ 64 = u' mod 2 ^ 64.
Proof.
  change (2 ^ 64) with (16 ^ N.of_nat 16).
  rewrite <- hex_digits_same, <- !suffix_is_low_digits.
  unfold fragment_name. split.
  - intros H. do 2 apply String.app_inj in H. by apply app_inv_tail in H.
  - by intros ->.
Qed.

End SuffixMore.

(** ** More on [new] *)

Section NewMore.

Context (os_system : string → gmap string node → gmap string node * Z).

Implicit Types (w : world) (title : string) (u : N).

(** The world once the first statement of [new] has run. *)
Lemma new_unfold u title w :
  let path := release_note_path title u in
  let w1 := if bool_decide (is_Some (fs w !! staging_dir)) then w
            else set_fs (insert staging_dir Dir) w in
  new os_system u title w =
    match Os.open_write path w1 with
    | (inl e, _) => (inl e, w1)
    | (inr _, w2) =>
        (inr (),
         match environ w !! "EDITOR" with
         | None =>
             {| fs := fs w2; environ := environ w;
                stdout := (stdout w ++ ["Please edit " +:+ path +:+ " manualy"])
                            ++ [done_reminder] |}
         | Some editor =>
             {| fs := (os_system (editor +:+ " " +:+ path) (fs w2)).1;
                environ := environ w;
                stdout := stdout w ++ [done_reminder] |}
         end)
    end.
Proof.
  intros path w1. unfold new. rewrite <- bind_assoc.
  assert ((present ← Os.path_exists staging_dir;
           if present : bool then mret () else Os.makedirs staging_dir) w
          = (inr (), w1)) as Hfirst.
  { unfold mbind, task_bind, Os.path_exists, w1.
    destruct (fs w !! staging_dir) as [x|] eqn:Hs.
    - by rewrite bool_decide_eq_true_2 by by eexists.
    - rewrite bool_decide_eq_false_2 by by intros [? ?].
      unfold Os.makedirs. by rewrite Hs. }
  erewrite bind_ok by exact Hfirst. fold path.
  assert (environ w1 = environ w ∧ stdout w1 = stdout w) as [Henv Hout].
  { unfold w1. by case_bool_decide. }
  destruct (open_write_cases path w1) as [Hopen | Hopen]; rewrite Hopen.
  - erewrite bind_ok by exact Hopen.
    unfold mbind, task_bind, Os.getenv, system, Os.print, mret, task_ret.
    cbn [fs environ stdout set_fs]. unfold set_fs. cbn [fs environ stdout].
    rewrite Henv, Hout.
    destruct (environ w !! "EDITOR") as [editor|] eqn:Heditor;
      cbn [default fs environ stdout]; [|done].
    rewrite Heditor. cbn [default]. unfold id.
    by destruct (os_system (editor +:+ " " +:+ path) _).
  - by erewrite bind_err.
Qed.

(** X12. When [new] raises, it is the opening of the fragment that failed:
    the exception names its path, nothing has been printed, the editor has
    not been run, and the file system is the former one, with at most the
    staging directory added. *)
Theorem new_failure_leaves_no_fragment u title w (e : exn) w' :
  new os_system u title w = (inl e, w') →
  e = IOError (release_note_path title u) ∧
  stdout w' = stdout w ∧ environ w' = environ w ∧
  (fs w' = fs w ∨ fs w' = <[staging_dir := Dir]> (fs w)) ∧
  ∀ text, fs w' !! release_note_path title u = Some (File text) →
          fs w !! release_note_path title u = Some (File text).
Proof.
  rewrite new_unfold.
  set (w1 := if bool_decide _ then w else _).
  assert (stdout w1 = stdout w ∧ environ w1 = environ w ∧
          (fs w1 = fs w ∨ fs w1 = <[staging_dir := Dir]> (fs w))) as (Ho & He & Hf).
  { unfold w1. case_bool_decide; auto. }
  destruct (open_write_cases (release_note_path title u) w1) as [-> | ->];
    intros [= <- <-].
  split_and!; [done..|].
  intros text. destruct Hf as [-> | ->]; [done|].
  rewrite lookup_insert_ne; [done|].
  unfold release_note_path, staging_dir. intros Heq.
  apply (f_equal String.length) in Heq. rewrite app_length in Heq.
  simpl in Heq. lia.
Qed.

(** X14. [open(path, "w+")] truncates: when the generated name is taken
    by a regular file, [new] empties that file, whatever it held, and
    leaves every other file alone. *)
Theorem new_truncates_existing_fragment u title (old : string) w :
  PyStr.contains "/" title = false →
  fs w !! staging_dir = Some Dir →
  fs w !! release_note_path title u = Some (File old) →
  environ w !! "EDITOR" = None →
  ∃ w', new os_system u title w = (inr (), w') ∧
        fs w' = <[release_note_path title u := File ""]> (fs w).
Proof.
  intros Htitle Hstaging Hold Heditor.
  eexists. split.
  - apply new_run; [done| |].
    + intros text. by rewrite Hstaging.
    + by rewrite Hold.
  - rewrite Heditor. cbn [fs]. by rewrite (insert_id (fs w) staging_dir).
Qed.

End NewMore.

(** X13. Without [EDITOR], [new] does not depend on what running a command
    would do: no command is run. *)
Theorem new_without_editor_runs_nothing
    (os_system other_system : string → gmap string node → gmap string node * Z)
    (u : N) (title : string) (w : world) :
  environ w !! "EDITOR" = None →
  new os_system u title w = new other_system u title w.
Proof.
  intros Heditor. rewrite !new_unfold.
  destruct (Os.open_write _ _) as [[e|[]] w2]; [done|]. by rewrite Heditor.
Qed.

(** ** From [new] to [done] *)

Section NewThenDone.

Context (os_system : string → gmap string node → gmap string node * Z)
        (convert_text : string → string → string → option string)
        (safe_dump : gmap string (list string) → bool → string).

Lemma note_name_of_fragment_name (title : string) (u : N) :
  note_name (fragment_name title u) =
    title +:+ "-" +:+ PyStr.drop 16 (uuid_hex u) +:+ ".yaml".
Proof.
  unfold fragment_name, note_name.
  rewrite <- (app_assoc title "-"), <- (app_assoc (title +:+ "-") _ ".md").
  rewrite drop_last_app by reflexivity.
  by rewrite !app_assoc.
Qed.

(** X15. Fragments made by [new] never share a note: different fragment
    names give different note paths, so compiling one cannot overwrite the
    record of another. *)
Theorem new_fragments_have_distinct_notes (title title' : string) (u u' : N) :
  fragment_name title u ≠ fragment_name title' u' →
  note_path (fragment_name title u) ≠ note_path (fragment_name title' u').
Proof.
  intros Hne Heq. apply Hne. unfold note_path in Heq.
  apply String.app_inj in Heq. rewrite !note_name_of_fragment_name in Heq.
  unfold fragment_name.
  rewrite <- !(app_assoc title), <- !(app_assoc title') in Heq |- *.
  rewrite <- (app_assoc (title +:+ "-")), <- (app_assoc (title' +:+ "-")) in Heq |- *.
  apply app_inv_tail in Heq. by rewrite Heq.
Qed.

Lemma singleton_list {A} (x : A) (l : list A) :
  NoDup l → (∀ y, y ∈ l ↔ y = x) → l = [x].
Proof.
  intros Hnodup Hl. destruct l as [|a l].
  - assert (x ∈ @nil A) as Hx by by apply Hl. by apply elem_of_nil in Hx.
  - assert (a = x) as -> by (apply Hl; by left).
    destruct l as [|b l]; [done|].
    assert (b = x) as -> by (apply Hl; right; by left).
    apply NoDup_cons in Hnodup as [Hnotin _]. destruct Hnotin. by left.
Qed.

(** X16. A fragment that [new] has just created and nobody has edited
    compiles: in a checkout with a notes directory and nothing staged, for
    a title short enough that the file system accepts both the fragment
    name and the note name, [new] without editor followed by [done] returns
    normally, the staging directory is there and empty again, and the note
    [<title>-<suffix>.yaml] holds the dump of the empty record. *)
Theorem new_then_done (u : N) (title : string) (w : world) :
  PyStr.contains "/" title = false →
  name_fits (fragment_name title u) →
  name_fits (note_name (fragment_name title u)) →
  environ w !! "EDITOR" = None →
  (∀ text, fs w !! staging_dir ≠ Some (File text)) →
  (∀ n, fs w !! fragment_path n = None) →
  fs w !! notes_dir = Some Dir →
  fs w !! note_path (fragment_name title u) ≠ Some Dir →
  ∃ w1 w2,
    new os_system u title w = (inr (), w1) ∧
    done convert_text safe_dump w1 = (inr (), w2) ∧
    note_path (fragment_name title u) =
      "releasenotes/notes/" +:+ title +:+ "-" +:+ PyStr.drop 16 (uuid_hex u)
        +:+ ".yaml" ∧
    fs w2 = <[note_path (fragment_name title u) := File (safe_dump ∅ false)]>
              (<[staging_dir := Dir]> (fs w)).
Proof.
  intros Htitle _ _ Heditor Hstaging Hnone Hnotes Hnote.
  set (name := fragment_name title u).
  assert (release_note_path title u = fragment_path name) as Hpath by done.
  pose proof (new_run os_system u title w Htitle Hstaging) as Hnew.
  rewrite Hpath, Hnone, Heditor in Hnew. specialize (Hnew ltac:(done)).
  cbn zeta in Hnew.
  set (m1 := <[fragment_path name := File ""]> (<[staging_dir := Dir]> (fs w)))
    in Hnew.
  set (w1 := {| fs := m1 |}) in Hnew.
  assert (PyStr.contains "/" name = false) as Hsep
    by by apply fragment_name_no_separator.
  assert (name ≠ "") as Hnonempty.
  { unfold name, fragment_name. intros Heq.
    apply (f_equal String.length) in Heq. rewrite !app_length in Heq.
    simpl in Heq. lia. }
  assert (∀ n, fragment_path n ≠ staging_dir) as Hlonger.
  { intros n Heq. apply (f_equal String.length) in Heq.
    unfold fragment_path in Heq. rewrite app_length in Heq. simpl in Heq. lia. }
  assert (fs w1 !! staging_dir = Some Dir) as Hdir.
  { unfold w1, m1. cbn [fs].
    rewrite lookup_insert_ne by apply Hlonger. apply lookup_insert_eq. }
  assert (Os.listdir staging_dir w1 = (inr [name], w1)) as Hls.
  { destruct (Os.listdir staging_dir w1) as [[e|names] w1'] eqn:Hls.
    { unfold Os.listdir in Hls. by rewrite Hdir in Hls. }
    destruct (listdir_staging _ _ _ Hls) as (-> & _ & Hnodup & Hnames).
    f_equal. f_equal. apply singleton_list; [done|].
    intros n. rewrite Hnames. unfold w1, m1. cbn [fs]. split.
    - intros (_ & _ & Hin).
      destruct (decide (fragment_path n = fragment_path name)) as [Heq|Hne].
      { unfold fragment_path in Heq. by apply String.app_inj in Heq. }
      rewrite lookup_insert_ne, lookup_insert_ne, Hnone in Hin;
        [by destruct Hin | by apply not_eq_sym | by apply not_eq_sym].
    - intros ->. split_and!; [done..|]. rewrite lookup_insert_eq. by eexists. }
  assert (process_fragment convert_text safe_dump name w1 =
            (inr (), set_fs (λ m, delete (fragment_path name)
                       (<[note_path name := File (safe_dump ∅ false)]> m)) w1))
    as Hrun.
  { apply (process_fragment_ok convert_text safe_dump name "" ∅ ∅).
    - unfold w1, m1. cbn [fs]. apply lookup_insert_eq.
    - reflexivity.
    - reflexivity.
    - apply convert_sections_empty.
    - done.
    - unfold w1, m1. cbn [fs].
      rewrite !lookup_insert_ne; [done|by intros [=]|by intros [=]].
    - unfold w1, m1. cbn [fs].
      rewrite !lookup_insert_ne; [done| |].
      + intros Heq. apply (f_equal String.length) in Heq.
        unfold note_path in Heq. rewrite app_length in Heq. simpl in Heq. lia.
      + apply not_eq_sym, note_path_ne_fragment_path. }
  eexists _, _. split_and!.
  - exact Hnew.
  - unfold done. erewrite bind_ok by exact Hls. simpl.
    erewrite bind_ok by exact Hrun. reflexivity.
  - unfold note_path, name. by rewrite note_name_of_fragment_name.
  - unfold w1, m1, set_fs. cbn [fs].
    rewrite delete_insert_ne by apply not_eq_sym, note_path_ne_fragment_path.
    rewrite delete_insert_id; [done|].
    rewrite lookup_insert_ne by (apply not_eq_sym, Hlonger). apply Hnone.
Qed.

End NewThenDone.

(** ** The further properties at sample inputs *)



Lemma single_section_body_witness :
  let body := "Dropped the old thing." +:+ String "013" Sample.LF +:+
              "Really." +:+ String "013" "" in
  parse_sections (readlines ("# " +:+ "Deprecations" +:+ PyStr.LF +:+ body)) =
    inr {[ PyStr.strip "Deprecations" :=
             "Dropped the old thing." +:+ Sample.LF +:+ "Really." +:+ Sample.LF ]} ∧
  (PyStr.contains "013" Sample.plain_text = false →
   universal_newlines Sample.plain_text = Sample.plain_text).
Proof.
  intros body. split.
  - apply (single_section_body "Deprecations" body).
    + reflexivity.
    + reflexivity.
    + repeat constructor.
  - apply (single_section_body "Deprecations" Sample.plain_text).
    + reflexivity.
    + reflexivity.
    + repeat constructor.
Defined.

Lemma done_touches_only_its_directories_witness :
  let w := Sample.staged Sample.fragment Sample.plain_text in
  let w' := {| fs := {[ ".changelog" := Dir;
                        "releasenotes/notes" := Dir;
                        "releasenotes/notes/foo-abc123.yaml" :=
                          File (Sample.safe_dump ∅ false) ]};
               environ := ∅; stdout := [] |} in
  environ w' = environ w ∧ stdout w' = stdout w ∧
  ∀ p, PyStr.startswith ".changelog/" p = false →
       PyStr.startswith "releasenotes/notes/" p = false →
       fs w' !! p = fs w !! p.
Proof.
  intros w w'.
  apply (done_touches_only_its_directories Sample.convert_text Sample.safe_dump
           w (inr ()) w').
  vm_compute. reflexivity.
Defined.

Lemma done_with_nothing_staged_witness :
  done Sample.convert_text Sample.safe_dump Sample.fresh =
    (inl (IOError ".changelog"), Sample.fresh).
Proof.
  apply (done_with_nothing_staged Sample.convert_text Sample.safe_dump Sample.fresh).
  intros n. apply lookup_singleton_ne. discriminate.
Defined.

Lemma done_compiles_every_fragment_witness :
  let w := Sample.staged_pair "fix.md" Sample.two_sections_text
             "feature.md" Sample.one_section_text in
  ∃ w', done Sample.convert_text Sample.safe_dump w = (inr (), w') ∧
        (∀ n, n ∈ ["feature.md"; "fix.md"] →
           fs w' !! fragment_path n = None ∧
           ∃ record, fs w' !! note_path n =
                       Some (File (Sample.safe_dump record false))) ∧
        Os.listdir staging_dir w' = (inr [], w').
Proof.
  intros w.
  apply (done_compiles_every_fragment Sample.convert_text Sample.safe_dump
           w ["feature.md"; "fix.md"]).
  - vm_compute. reflexivity.
  - reflexivity.
  - intros n [-> | [-> | []%elem_of_nil]%elem_of_cons]%elem_of_cons.
    + split_and!; [reflexivity | split; [vm_compute; lia | reflexivity] |].
      exists Sample.one_section_text. split_and!.
      * reflexivity.
      * reflexivity.
      * intros secs _ k body _. by eexists.
      * vm_compute. discriminate.
    + split_and!; [reflexivity | split; [vm_compute; lia | reflexivity] |].
      exists Sample.two_sections_text. split_and!.
      * reflexivity.
      * reflexivity.
      * intros secs _ k body _. by eexists.
      * vm_compute. discriminate.
Defined.

Lemma done_again_changes_nothing_witness :
  let w := Sample.staged_pair "fix.md" Sample.two_sections_text
             "feature.md" Sample.one_section_text in
  ∃ w', done Sample.convert_text Sample.safe_dump w = (inr (), w') ∧
        done Sample.convert_text Sample.safe_dump w' = (inr (), w').
Proof.
  intros w.
  apply (done_again_changes_nothing Sample.convert_text Sample.safe_dump
           w ["feature.md"; "fix.md"]).
  - vm_compute. reflexivity.
  - reflexivity.
  - intros n [-> | [-> | []%elem_of_nil]%elem_of_cons]%elem_of_cons.
    + split_and!; [reflexivity | split; [vm_compute; lia | reflexivity] |].
      exists Sample.one_section_text. split_and!.
      * reflexivity.
      * reflexivity.
      * intros secs _ k body _. by eexists.
      * vm_compute. discriminate.
    + split_and!; [reflexivity | split; [vm_compute; lia | reflexivity] |].
      exists Sample.two_sections_text. split_and!.
      * reflexivity.
      * reflexivity.
      * intros secs _ k body _. by eexists.
      * vm_compute. discriminate.
Defined.

Lemma colliding_notes_last_wins_witness :
  let w := Sample.staged_pair "fix.md" Sample.two_sections_text
             "fix.py" Sample.one_section_text in
  ∃ w', done_loop Sample.convert_text Sample.safe_dump ["fix.md"; "fix.py"] w =
          (inr (), w') ∧
        fs w' !! "releasenotes/notes/fix.yaml" =
          Some (File (Sample.safe_dump
            {[ "Deprecations" :=
                 ["Dropped the old thing." +:+ Sample.LF +:+ "(markdown to rst)"] ]}
            false)) ∧
        fs w' !! fragment_path "fix.md" = None ∧
        fs w' !! fragment_path "fix.py" = None.
Proof.
  intros w.
  apply (colliding_notes_last_wins Sample.convert_text Sample.safe_dump
           "fix.md" "fix.py" Sample.two_sections_text Sample.one_section_text
           {[ "Bug Fixes" := "Fixed the thing." +:+ Sample.LF;
              "Features" := "Added the other thing." +:+ Sample.LF ]}
           {[ "Deprecations" := "Dropped the old thing." +:+ Sample.LF ]}
           {[ "Bug Fixes" := ["Fixed the thing." +:+ Sample.LF +:+ "(markdown to rst)"];
              "Features" := ["Added the other thing." +:+ Sample.LF +:+ "(markdown to rst)"] ]}
           {[ "Deprecations" :=
                ["Dropped the old thing." +:+ Sample.LF +:+ "(markdown to rst)"] ]}
           w).
  - discriminate.
  - reflexivity.
  - reflexivity.
  - reflexivity.
  - reflexivity.
  - reflexivity.
  - split; [vm_compute; lia | reflexivity].
  - reflexivity.
  - reflexivity.
  - reflexivity.
  - reflexivity.
  - vm_compute. reflexivity.
  - vm_compute. reflexivity.
  - vm_compute. reflexivity.
  - vm_compute. reflexivity.
  - reflexivity.
  - vm_compute. discriminate.
Defined.

Lemma new_failure_leaves_no_fragment_witness :
  let w' := {| fs := {[ ".changelog" := Dir ]}; environ := ∅; stdout := [] |} in
  stdout w' = stdout Sample.empty_world ∧
  ∀ text, fs w' !! release_note_path "fix/crash" Sample.uuid = Some (File text) →
          fs Sample.empty_world !! release_note_path "fix/crash" Sample.uuid =
            Some (File text).
Proof.
  intros w'.
  destruct (new_failure_leaves_no_fragment Sample.no_editor Sample.uuid
              "fix/crash" Sample.empty_world
              (IOError ".changelog/fix/crash-a1b2c3d4e5f60718.md") w')
    as (_ & Hout & _ & _ & Hfile).
  - vm_compute. reflexivity.
  - split; [exact Hout | exact Hfile].
Defined.

Lemma new_without_editor_runs_nothing_witness :
  new Sample.no_editor Sample.uuid "fix-crash" Sample.fresh =
    new Sample.wiping_command Sample.uuid "fix-crash" Sample.fresh.
Proof.
  apply (new_without_editor_runs_nothing Sample.no_editor Sample.wiping_command).
  reflexivity.
Defined.

Lemma new_truncates_existing_fragment_witness :
  ∃ w', new Sample.no_editor Sample.uuid "fix-crash" Sample.taken = (inr (), w') ∧
        fs w' = <[release_note_path "fix-crash" Sample.uuid := File ""]>
                  (fs Sample.taken).
Proof.
  apply (new_truncates_existing_fragment Sample.no_editor Sample.uuid
           "fix-crash" Sample.two_sections_text Sample.taken);
    reflexivity.
Defined.

Lemma new_fragments_have_distinct_notes_witness :
  note_path (fragment_name "fix-crash" Sample.uuid) ≠
    note_path (fragment_name "fix-crash" Sample.other_uuid).
Proof.
  apply (new_fragments_have_distinct_notes "fix-crash" "fix-crash"
           Sample.uuid Sample.other_uuid).
  vm_compute. discriminate.
Defined.

Lemma new_then_done_witness :
  ∃ w1 w2,
    new Sample.no_editor Sample.uuid "fix-crash" Sample.fresh = (inr (), w1) ∧
    done Sample.convert_text Sample.safe_dump w1 = (inr (), w2) ∧
    note_path (fragment_name "fix-crash" Sample.uuid) =
      "releasenotes/notes/" +:+ "fix-crash" +:+ "-" +:+
        PyStr.drop 16 (uuid_hex Sample.uuid) +:+ ".yaml" ∧
    fs w2 = <[note_path (fragment_name "fix-crash" Sample.uuid) :=
                File (Sample.safe_dump ∅ false)]>
              (<[staging_dir := Dir]> (fs Sample.fresh)).
Proof.
  apply (new_then_done Sample.no_editor Sample.convert_text Sample.safe_dump
           Sample.uuid "fix-crash" Sample.fresh).
  - reflexivity.
  - split; [vm_compute; lia | reflexivity].
  - split; [vm_compute; lia | reflexivity].
  - reflexivity.
  - intros text. vm_compute. discriminate.
  - intros n. apply lookup_singleton_ne. discriminate.
  - reflexivity.
  - vm_compute. discriminate.
Defined.

Example suffix_drops_high_bits :
  fragment_name "fix-crash" (Sample.uuid + 2 ^ 64) = fragment_name "fix-crash" Sample.uuid.
Proof. reflexivity. Qed.
